(** * csv_to_kml: column detection and track building

    A shallow embedding of [csv_to_kml.py] and [csv-to-kml_iphone.py]:
    the header resolver [find_column], the per-row loop that fills the
    [gx:Track] element, the writing of the document, and the summaries
    the two front ends produce.

    Python text is modelled by [string] over ASCII characters; the
    built-ins the program calls ([str.strip], [str.lower], [in], [len],
    [repr], [float], [str] of a float, the insertion-ordered [dict]) are
    modelled in the first modules, the program itself afterwards, with
    the library calls that write the document ([tostring],
    [minidom.parseString], [toprettyxml]) next to it. *)

From Stdlib Require Import List String Ascii Bool Arith PeanoNat ZArith Lia.
From Stdlib Require Import Floats.SpecFloat.
From Stdlib Require Import Numbers.DecimalString.
From Stdlib Require Import Sorting.Permutation.
Import ListNotations.

Local Open Scope list_scope.
Local Open Scope string_scope.
Local Open Scope nat_scope.

(** ** Python strings *)

Module PyStr.

(** [str.isspace] on an ASCII character: tab, line feed, vertical tab,
    form feed, carriage return, the four separators 0x1c..0x1f, space. *)
Definition isspace (c : ascii) : bool :=
  let n := nat_of_ascii c in
  ((9 <=? n) && (n <=? 13)) || ((28 <=? n) && (n <=? 31)) || (n =? 32).

(** Removes the leading characters that satisfy [p]. *)
Fixpoint lstrip_by (p : ascii -> bool) (s : string) : string :=
  match s with
  | EmptyString => EmptyString
  | String c s' => if p c then lstrip_by p s' else s
  end.

(** Removes the trailing characters that satisfy [p]. *)
Fixpoint rstrip_by (p : ascii -> bool) (s : string) : string :=
  match s with
  | EmptyString => EmptyString
  | String c s' =>
      match rstrip_by p s' with
      | EmptyString => if p c then EmptyString else String c EmptyString
      | r => String c r
      end
  end.

(** [s.strip()] *)
Definition strip (s : string) : string := rstrip_by isspace (lstrip_by isspace s).

Definition lower_char (c : ascii) : ascii :=
  let n := nat_of_ascii c in
  if (65 <=? n) && (n <=? 90) then ascii_of_nat (n + 32) else c.

(** [s.lower()] *)
Fixpoint lower (s : string) : string :=
  match s with
  | EmptyString => EmptyString
  | String c s' => String (lower_char c) (lower s')
  end.

(** [needle in hay] for two strings *)
Fixpoint contains (needle hay : string) : bool :=
  String.prefix needle hay
  || match hay with
     | EmptyString => false
     | String _ hay' => contains needle hay'
     end.

(** Truth value of a string: [bool(s)] *)
Definition truthy (s : string) : bool :=
  match s with EmptyString => false | String _ _ => true end.

(** [sep.join(parts)] *)
Fixpoint join (sep : string) (parts : list string) : string :=
  match parts with
  | [] => EmptyString
  | [p] => p
  | p :: rest => p ++ sep ++ join sep rest
  end.

(** [str(n)] for a non-negative integer *)
Definition of_nat (n : nat) : string :=
  NilEmpty.string_of_uint (Nat.to_uint n).

Definition hex_digit (n : nat) : ascii :=
  if n <? 10 then ascii_of_nat (48 + n) else ascii_of_nat (87 + n).

Definition backslash : ascii := "092"%char.
Definition squote : ascii := "039"%char.
Definition dquote : ascii := "034"%char.

Definition escape (c : ascii) : string := String backslash (String c EmptyString).

(** One character of [repr(s)], given the quote chosen for the literal. *)
Definition repr_char (quote c : ascii) : string :=
  let n := nat_of_ascii c in
  if Ascii.eqb c quote || Ascii.eqb c backslash then escape c
  else if n =? 9 then escape "t"
  else if n =? 10 then escape "n"
  else if n =? 13 then escape "r"
  else if (n <? 32) || (n =? 127) then
    String backslash (String "x"
      (String (hex_digit (n / 16)) (String (hex_digit (n mod 16)) EmptyString)))
  else String c EmptyString.

Fixpoint repr_body (quote : ascii) (s : string) : string :=
  match s with
  | EmptyString => EmptyString
  | String c s' => repr_char quote c ++ repr_body quote s'
  end.

Definition has_char (c : ascii) (s : string) : bool :=
  contains (String c EmptyString) s.

(** [repr(s)]: single quotes unless the text has a single quote and no
    double quote. *)
Definition repr (s : string) : string :=
  let quote := if has_char squote s && negb (has_char dquote s) then dquote else squote in
  String quote (repr_body quote s ++ String quote EmptyString).

(** [repr(x)] where [x] is a string or [None] *)
Definition repr_opt (x : option string) : string :=
  match x with
  | None => "None"
  | Some s => repr s
  end.

End PyStr.

(** ** Python floats

    A Python [float] is an IEEE 754 binary64 number, here a [spec_float]
    with 53 bits of precision.  [of_string] is [float(text)] and [str] is
    the conversion an f-string applies to a float, which is [repr]. *)

Module PyFloat.

Local Open Scope Z_scope.

Definition float : Type := spec_float.

Definition prec : Z := 53.
Definition emax : Z := 1024.

Definition zero : float := S754_zero false.

(** [a == b] on floats *)
Definition eqb (a b : float) : bool := SFeqb a b.


(** The binary64 number nearest to [m * 10^e] (ties to even), with the
    sign [neg]; too large a value gives an infinity, too small a zero. *)
Definition of_decimal (neg : bool) (m e : Z) : float :=
  if m =? 0 then S754_zero neg
  else
    let num := m * 10 ^ Z.max e 0 in
    let den := 10 ^ Z.max (- e) 0 in
    let '(q, e', l) := SFdiv_core_binary prec emax num 0 den 0 in
    binary_round_aux prec emax neg q e' l.

Definition is_digit (c : ascii) : bool :=
  let n := nat_of_ascii c in ((48 <=? n) && (n <=? 57))%nat.

Definition digit_val (c : ascii) : Z := Z.of_nat (nat_of_ascii c) - 48.

(** Reads a run of digits: the number read after [acc], how many
    digits there were, and the text left. *)
Fixpoint digits (s : string) (acc : Z) (count : nat) : Z * nat * string :=
  match s with
  | EmptyString => (acc, count, s)
  | String c s' =>
      if is_digit c then digits s' (10 * acc + digit_val c) (S count)
      else (acc, count, s)
  end.

(** An underscore is accepted between two digits only; the accepted
    underscores are dropped.  [prev] is the character before [s]. *)
Fixpoint drop_underscores (prev : ascii) (s : string) : option string :=
  match s with
  | EmptyString => if Ascii.eqb prev "_" then None else Some EmptyString
  | String c s' =>
      if Ascii.eqb c "_" then
        if is_digit prev then drop_underscores c s' else None
      else if Ascii.eqb prev "_" && negb (is_digit c) then None
      else option_map (String c) (drop_underscores c s')
  end.

Definition sign (s : string) : bool * string :=
  match s with
  | String "-" s' => (true, s')
  | String "+" s' => (false, s')
  | _ => (false, s)
  end.

(** The magnitude after the sign: [inf], [infinity] or [nan] in any
    letter case, or digits with an optional point and exponent.  At
    least one digit is needed around the point, at least one in the
    exponent, and nothing may follow. *)
Definition magnitude (neg : bool) (s : string) : option float :=
  let word := PyStr.lower s in
  if String.eqb word "inf" || String.eqb word "infinity" then Some (S754_infinity neg)
  else if String.eqb word "nan" then Some S754_nan
  else
    let '(m1, n1, r1) := digits s 0 0 in
    let '(m2, n2, r2) :=
      match r1 with
      | String "." r => digits r m1 0
      | _ => (m1, 0%nat, r1)
      end in
    if (n1 + n2 =? 0)%nat then None
    else
      match r2 with
      | EmptyString => Some (of_decimal neg m2 (- Z.of_nat n2))
      | String c r3 =>
          if Ascii.eqb c "e" || Ascii.eqb c "E" then
            let '(eneg, r4) := sign r3 in
            let '(ev, n3, r5) := digits r4 0 0 in
            if (n3 =? 0)%nat || PyStr.truthy r5 then None
            else Some (of_decimal neg m2 ((if eneg then - ev else ev) - Z.of_nat n2))
          else None
      end.

(** The characters [float] skips around a numeral: tab, line feed,
    vertical tab, form feed, carriage return and space. *)
Definition isspace (c : ascii) : bool :=
  let n := nat_of_ascii c in (((9 <=? n) && (n <=? 13)) || (n =? 32))%nat.

(** [float(text)]: [None] stands for [ValueError]. *)
Definition of_string (text : string) : option float :=
  match drop_underscores "000" text with
  | None => None
  | Some s =>
      let '(neg, rest) := sign (PyStr.rstrip_by isspace (PyStr.lstrip_by isspace s)) in
      magnitude neg rest
  end.

(** *** Conversion to text

    [repr] of a finite float is the shortest decimal numeral that
    [float] reads back as the same number, the nearest to the number
    when several have that length.  It is printed with an exponent
    when the decimal point falls more than 16 places right of the
    first digit or more than 3 places left of it. *)

(** [x = num / den] for a positive finite float of mantissa [m] and
    exponent [e]. *)
Definition ratio (m : positive) (e : Z) : Z * Z :=
  if 0 <=? e then (Zpos m * 2 ^ e, 1) else (Zpos m, 2 ^ (- e)).

(** The least [k >= k0] with [num / den < 10^k]. *)
Fixpoint decimal_point (fuel : nat) (num den k : Z) : Z :=
  match fuel with
  | O => k
  | S fuel' =>
      if num * 10 ^ Z.max (- k) 0 <? den * 10 ^ Z.max k 0 then k
      else decimal_point fuel' num den (k + 1)
  end.

(** A value below the decimal point position of [num / den], and no
    more than a few places below it: a binary logarithm of the ratio,
    scaled by an approximation of the decimal logarithm of 2. *)
Definition decimal_point_below (num den : Z) : Z :=
  (Z.log2 num - Z.log2 den - 1) * 30103 / 100000 - 1.

(** Tries numerals of [n], [n+1], ... significant digits; the result is
    an integer [c] and an exponent [t] with [c * 10^t] the numeral. *)
Fixpoint shortest (fuel : nat) (x : float) (num den k : Z) (n : Z) : Z * Z :=
  match fuel with
  | O => (0, 0)
  | S fuel' =>
      let t := k - n in
      let a := num * 10 ^ Z.max (- t) 0 in
      let b := den * 10 ^ Z.max t 0 in
      let lo := a / b in
      let r := a mod b in
      let lo_ok := match of_decimal false lo t with
                   | S754_finite _ m' e' =>
                       match x with
                       | S754_finite _ m e => Pos.eqb m m' && (e =? e')
                       | _ => false
                       end
                   | _ => false
                   end in
      let hi_ok := negb (r =? 0) &&
                   match of_decimal false (lo + 1) t with
                   | S754_finite _ m' e' =>
                       match x with
                       | S754_finite _ m e => Pos.eqb m m' && (e =? e')
                       | _ => false
                       end
                   | _ => false
                   end in
      if lo_ok && hi_ok then (if 2 * r <=? b then (lo, t) else (lo + 1, t))
      else if lo_ok then (lo, t)
      else if hi_ok then (lo + 1, t)
      else shortest fuel' x num den k (n + 1)
  end.

(** Removes the zeros that end a numeral, counting them in the exponent. *)
Fixpoint trim_zeros (fuel : nat) (c t : Z) : Z * Z :=
  match fuel with
  | O => (c, t)
  | S fuel' => if (c mod 10 =? 0) && negb (c =? 0) then trim_zeros fuel' (c / 10) (t + 1) else (c, t)
  end.

Definition of_Z (z : Z) : string := NilEmpty.string_of_uint (N.to_uint (Z.to_N z)).

Fixpoint zeros (n : nat) : string :=
  match n with
  | O => EmptyString
  | S n' => String "0" (zeros n')
  end.

(** The digits [ds] with the decimal point [decpt] places after the
    first of them, in the layout of [repr]. *)
Definition layout (ds : string) (decpt : Z) : string :=
  let len := Z.of_nat (String.length ds) in
  if (decpt <=? -4) || (16 <? decpt) then
    let ex := decpt - 1 in
    let mant :=
      match ds with
      | String d EmptyString => ds
      | String d rest => String d (String "." rest)
      | EmptyString => ds
      end in
    let sgn := if ex <? 0 then "-" else "+" in
    let pad := if Z.abs ex <? 10 then "0" else EmptyString in
    (mant ++ "e" ++ sgn ++ pad ++ of_Z (Z.abs ex))%string
  else if decpt <=? 0 then ("0." ++ zeros (Z.to_nat (- decpt)) ++ ds)%string
  else if len <=? decpt then (ds ++ zeros (Z.to_nat (decpt - len)) ++ ".0")%string
  else (String.substring 0 (Z.to_nat decpt) ds ++ "."
          ++ String.substring (Z.to_nat decpt) (Z.to_nat (len - decpt)) ds)%string.

(** [str(x)], also what [f"{x}"] gives *)
Definition str (x : float) : string :=
  match x with
  | S754_nan => "nan"
  | S754_infinity s => if s then "-inf" else "inf"
  | S754_zero s => if s then "-0.0" else "0.0"
  | S754_finite s m e =>
      let '(num, den) := ratio m e in
      let k := decimal_point 8 num den (decimal_point_below num den) in
      let '(c0, t0) := shortest 17 x num den k 1 in
      let '(c, t) := trim_zeros 400 c0 t0 in
      let ds := of_Z c in
      let minus := if s then "-" else EmptyString in
      (minus ++ layout ds (t + Z.of_nat (String.length ds)))%string
  end.

End PyFloat.

(** ** Python dictionaries

    A [dict] keeps its keys in insertion order; assigning to a key that
    is already present replaces the value and leaves the key where it
    was.  The resolver iterates over the dictionary, so the order is
    part of the model. *)

Module PyDict.

Definition dict : Type := list (string * string).

(** [d.get(k)] *)
Fixpoint get (d : dict) (k : string) : option string :=
  match d with
  | [] => None
  | (k', v) :: d' => if String.eqb k' k then Some v else get d' k
  end.

(** [k in d] *)
Definition mem (k : string) (d : dict) : bool :=
  match get d k with Some _ => true | None => false end.

(** [d[k] = v] *)
Fixpoint set (d : dict) (k v : string) : dict :=
  match d with
  | [] => [(k, v)]
  | (k', v') :: d' =>
      if String.eqb k' k then (k', v) :: d' else (k', v') :: set d' k v
  end.

(** [d.items()] *)
Definition items (d : dict) : list (string * string) := d.

End PyDict.

(** ** The header resolver *)

Inductive Field : Type := timestamp | latitude | longitude | elevation.

Definition POSSIBLE_HEADERS (f : Field) : list string :=
  match f with
  | timestamp => ["timestamp"; "time"; "time_utc"; "datetime"; "date_time"; "gpstime"; "utc_time"]
  | latitude => ["latitude"; "lat"; "lat_deg"; "lat_dd"; "latitude_deg"]
  | longitude => ["longitude"; "lon"; "long"; "lng"; "lon_deg"; "lon_dd"; "longitude_deg"]
  | elevation => ["elevation"; "altitude"; "alt"; "height"; "elev"; "alt_m"]
  end.

(** [h.strip().lower()], the key of a header in the index *)
Definition key_of (h : string) : string := PyStr.lower (PyStr.strip h).

(** One step of the comprehension: [h] enters the index unless it is empty. *)
Definition index_step (d : PyDict.dict) (h : string) : PyDict.dict :=
  if PyStr.truthy h then PyDict.set d (key_of h) h else d.

(** [{h.strip().lower(): h for h in fieldnames if h}] *)
Definition lower_to_original (fieldnames : list string) : PyDict.dict :=
  fold_left index_step fieldnames [].

(** [l.sort(key=len)].  Python's sort is stable; so is this insertion
    sort, which places an element in front of the first element that is
    at least as long. *)
Fixpoint insert_by_len (x : string) (l : list string) : list string :=
  match l with
  | [] => [x]
  | y :: l' =>
      if String.length x <=? String.length y then x :: l
      else y :: insert_by_len x l'
  end.

Fixpoint sort_by_len (l : list string) : list string :=
  match l with
  | [] => []
  | x :: l' => insert_by_len x (sort_by_len l')
  end.

(** First loop of [find_column]: the first alias that is a key of the index. *)
Fixpoint exact_pass (d : PyDict.dict) (possible_names : list string) : option string :=
  match possible_names with
  | [] => None
  | name :: rest =>
      if PyDict.mem name d then PyDict.get d name else exact_pass d rest
  end.

(** [[orig for lower, orig in lower_to_original.items() if name in lower]] *)
Definition candidates_of (d : PyDict.dict) (name : string) : list string :=
  map snd (filter (fun item => PyStr.contains name (fst item)) (PyDict.items d)).

(** Second loop of [find_column]: the first alias contained in some key;
    the candidates are sorted by their own length and the first is
    returned. *)
Fixpoint substring_pass (d : PyDict.dict) (possible_names : list string) : option string :=
  match possible_names with
  | [] => None
  | name :: rest =>
      match candidates_of d name with
      | [] => substring_pass d rest
      | candidates => hd_error (sort_by_len candidates)
      end
  end.

(** [find_column(fieldnames, possible_names)]; [fieldnames] is [None]
    when the reader saw no header line, and the result is [None] when
    no column is found. *)
Definition find_column (fieldnames : option (list string)) (possible_names : list string)
  : option string :=
  match fieldnames with
  | None => None
  | Some [] => None
  | Some hs =>
      let d := lower_to_original hs in
      match exact_pass d possible_names with
      | Some orig => Some orig
      | None => substring_pass d possible_names
      end
  end.

(** ** Paths ([os.path] on a POSIX system) *)

Module PyPath.

Fixpoint rfind_from (i : nat) (c : ascii) (s : string) (last : option nat) : option nat :=
  match s with
  | EmptyString => last
  | String d s' => rfind_from (S i) c s' (if Ascii.eqb d c then Some i else last)
  end.

(** [s.rfind(c)], [None] for -1 *)
Definition rfind (c : ascii) (s : string) : option nat := rfind_from 0 c s None.

Definition drop (n : nat) (s : string) : string :=
  String.substring n (String.length s - n) s.

(** [os.path.basename(p)] *)
Definition basename (p : string) : string :=
  match rfind "/" p with
  | None => p
  | Some i => drop (S i) p
  end.

Fixpoint all_dots (s : string) : bool :=
  match s with
  | EmptyString => true
  | String c s' => Ascii.eqb c "." && all_dots s'
  end.

(** [os.path.splitext(p)[0]]: the text before the last dot, unless
    that dot comes before the last slash or has only dots between the
    last slash and itself. *)
Definition splitext_root (p : string) : string :=
  match rfind "." p with
  | None => p
  | Some dot =>
      let start := match rfind "/" p with None => 0 | Some sep => S sep end in
      if dot <? start then p
      else if all_dots (String.substring start (dot - start) p) then p
      else String.substring 0 dot p
  end.

Fixpoint ends_with_slash (s : string) : bool :=
  match s with
  | EmptyString => false
  | String c EmptyString => Ascii.eqb c "/"
  | String _ s' => ends_with_slash s'
  end.

(** [os.path.join(a, b)] *)
Definition join (a b : string) : string :=
  if String.prefix "/" b then b
  else if negb (PyStr.truthy a) || ends_with_slash a then a ++ b
  else a ++ "/" ++ b.

End PyPath.

(** ** The document tree

    [xml.etree.ElementTree] elements: a tag, attributes, an optional
    text and the children in document order.  The program hands the
    finished tree to the standard library's serializer; the model ends
    with the tree. *)

#[warnings="-register-all"]
Inductive Element : Type :=
  Elem (tag : string) (attrib : list (string * string)) (text : option string)
       (children : list Element).

Definition text_element (tag text : string) : Element := Elem tag [] (Some text) [].

(** ** Rows

    A row of [csv.DictReader]: the cells by header; a cell is [None]
    when the line is shorter than the header line. *)

Definition Row : Type := list (string * option string).

(** [row.get(col)] *)
Fixpoint row_get (row : Row) (col : string) : option string :=
  match row with
  | [] => None
  | (k, v) :: row' => if String.eqb k col then v else row_get row' col
  end.

(** [x or ''] for a cell: [None] and the empty text give the empty text *)
Definition or_empty (x : option string) : string :=
  match x with
  | None => EmptyString
  | Some s => s
  end.

(** [(row.get(col) or '').strip()] *)
Definition cell (row : Row) (col : string) : string :=
  PyStr.strip (or_empty (row_get row col)).

(** ** The body of the [try] block

    The statements of the block run in a small monad: a computation
    either ends normally or raises, and it records the texts it passed
    to [float], in call order. *)

Inductive exn : Type := ValueError | TypeError | KeyError | ExpatError.

Inductive result (A : Type) : Type :=
| Ok (a : A)
| Raise (e : exn).
Arguments Ok {A} a.
Arguments Raise {A} e.

Record Try (A : Type) : Type := mkTry { float_calls : list string; outcome : result A }.
Arguments mkTry {A} float_calls outcome.
Arguments float_calls {A} t.
Arguments outcome {A} t.

Definition ret {A : Type} (a : A) : Try A := mkTry [] (Ok a).

Definition bind {A B : Type} (c : Try A) (k : A -> Try B) : Try B :=
  match outcome c with
  | Ok a => mkTry (float_calls c ++ float_calls (k a))%list (outcome (k a))
  | Raise e => mkTry (float_calls c) (Raise e)
  end.

Notation "x <- c ;; k" := (bind c (fun x => k))
  (at level 61, c at next level, right associativity).

(** [float(text)] inside the block *)
Definition float_of (text : string) : Try PyFloat.float :=
  mkTry [text]
        match PyFloat.of_string text with
        | Some x => Ok x
        | None => Raise ValueError
        end.

(** ** The row loop *)

Record Columns : Type := mkColumns {
  ts_col : string;
  lat_col : string;
  lon_col : string;
  ele_col : string
}.

(** The variables the loop updates; [track] holds the children of the
    [gx:Track] element in document order. *)
Record Loop : Type := mkLoop {
  track : list Element;
  rows_written : nat;
  rows_skipped : nat;
  rows_invalid_coords : nat;
  total_rows : nat
}.

Definition loop_start : Loop := mkLoop [] 0 0 0 0.

Definition count_row (st : Loop) : Loop :=
  mkLoop (track st) (rows_written st) (rows_skipped st) (rows_invalid_coords st)
         (S (total_rows st)).

Definition count_skipped (st : Loop) : Loop :=
  mkLoop (track st) (rows_written st) (S (rows_skipped st)) (rows_invalid_coords st)
         (total_rows st).

Definition count_invalid_coords (st : Loop) : Loop :=
  mkLoop (track st) (rows_written st) (rows_skipped st) (S (rows_invalid_coords st))
         (total_rows st).

(** [f"{lon} {lat} {ele}"] *)
Definition coord_text (lon lat ele : PyFloat.float) : string :=
  PyFloat.str lon ++ " " ++ PyFloat.str lat ++ " " ++ PyFloat.str ele.

(** The two [SubElement] calls and [rows_written += 1] *)
Definition write_point (st : Loop) (ts_val : string) (lon lat ele : PyFloat.float) : Loop :=
  mkLoop (track st ++ [text_element "when" ts_val;
                       text_element "gx:coord" (coord_text lon lat ele)])%list
         (S (rows_written st)) (rows_skipped st) (rows_invalid_coords st)
         (total_rows st).

(** The statements between [try:] and [except]; a [continue] ends the
    block with the state reached. *)
Definition try_block (cols : Columns) (st : Loop) (row : Row) : Try Loop :=
  let ts_val := cell row (ts_col cols) in
  let lat_s := cell row (lat_col cols) in
  let lon_s := cell row (lon_col cols) in
  let ele_s := cell row (ele_col cols) in
  if negb (PyStr.truthy ts_val) then ret (count_skipped st)
  else
    lat <- float_of lat_s ;;
    lon <- float_of lon_s ;;
    ele <- float_of ele_s ;;
    if PyFloat.eqb lat PyFloat.zero || PyFloat.eqb lon PyFloat.zero
    then ret (count_invalid_coords st)
    else ret (write_point st ts_val lon lat ele).

(** [except (ValueError, TypeError, KeyError)] *)
Definition caught (e : exn) : bool :=
  match e with
  | ValueError | TypeError | KeyError => true
  | ExpatError => false
  end.

(** One iteration of [for row in reader]; [Raise] is an exception that
    leaves the loop. *)
Definition loop_body (cols : Columns) (st : Loop) (row : Row) : result Loop :=
  let st1 := count_row st in
  match outcome (try_block cols st1 row) with
  | Ok st2 => Ok st2
  | Raise e => if caught e then Ok (count_skipped st1) else Raise e
  end.

(** [for row in reader: ...] from the state [st] *)
Fixpoint run_loop (cols : Columns) (st : Loop) (rows : list Row) : result Loop :=
  match rows with
  | [] => Ok st
  | row :: rows' =>
      match loop_body cols st row with
      | Ok st' => run_loop cols st' rows'
      | Raise e => Raise e
      end
  end.

(** ** Writing the document

    After the loop the tree is serialized with [tostring], read back
    with [minidom.parseString] and written with [toprettyxml].  The tags
    and attributes of the tree are the fixed ones of the program, which
    XML accepts as they are; its texts come from the input and decide
    what this step does. *)

Module PyXml.

Definition cr : ascii := "013"%char.
Definition lf : ascii := "010"%char.
Definition nl : string := String lf EmptyString.
Definition quote : string := String PyStr.dquote EmptyString.

(** A character that XML allows in a document: tab, line feed, carriage
    return, and the characters from the space on. *)
Definition valid_char (c : ascii) : bool :=
  let n := nat_of_ascii c in
  (n =? 9) || (n =? 10) || (n =? 13) || (32 <=? n).

Fixpoint valid_text (s : string) : bool :=
  match s with
  | EmptyString => true
  | String c s' => valid_char c && valid_text s'
  end.

(** The line ends of a text as the parser reports them: a carriage
    return, with or without a line feed after it, becomes a line feed. *)
Fixpoint normalize_newlines (s : string) : string :=
  match s with
  | EmptyString => EmptyString
  | String c s' =>
      if Ascii.eqb c cr then
        String lf
          match s' with
          | EmptyString => EmptyString
          | String d s'' =>
              if Ascii.eqb d lf then normalize_newlines s'' else normalize_newlines s'
          end
      else String c (normalize_newlines s')
  end.

(** The text of an element once serialized and read back: the parser
    raises on a character XML does not allow; an empty text leaves no
    text node. *)
Definition read_text (text : option string) : result (option string) :=
  match text with
  | None => Ok None
  | Some s =>
      if valid_text s then
        Ok match s with
           | EmptyString => None
           | String _ _ => Some (normalize_newlines s)
           end
      else Raise ExpatError
  end.

(** [minidom.parseString(tostring(e, 'utf-8'))]: the same tree with its
    texts read back, or [ExpatError]. *)
Fixpoint reparse (e : Element) : result Element :=
  match e with
  | Elem tag attrib text children =>
      match read_text text with
      | Raise err => Raise err
      | Ok text' =>
          match (fix each (l : list Element) : result (list Element) :=
                   match l with
                   | [] => Ok []
                   | x :: l' =>
                       match reparse x with
                       | Raise err => Raise err
                       | Ok x' =>
                           match each l' with
                           | Raise err => Raise err
                           | Ok r => Ok (x' :: r)
                           end
                       end
                   end) children with
          | Raise err => Raise err
          | Ok children' => Ok (Elem tag attrib text' children')
          end
      end
  end.

(** What the writer of [minidom] puts for one character of data. *)
Definition escape_char (c : ascii) : string :=
  if Ascii.eqb c "&" then "&amp;"
  else if Ascii.eqb c "<" then "&lt;"
  else if Ascii.eqb c PyStr.dquote then "&quot;"
  else if Ascii.eqb c ">" then "&gt;"
  else String c EmptyString.

(** [_write_data]: the four replacements, done on the whole text. *)
Fixpoint escape (s : string) : string :=
  match s with
  | EmptyString => EmptyString
  | String c s' => escape_char c ++ escape s'
  end.

Definition attribute (a : string * string) : string :=
  " " ++ fst a ++ "=" ++ quote ++ escape (snd a) ++ quote.

(** [node.writexml(writer, indent, "  ", "\n")] for an element: a lone
    text is written on the line of its element, any other content one
    node a line, two spaces deeper. *)
Fixpoint writexml (indent : string) (e : Element) : string :=
  match e with
  | Elem tag attrib text children =>
      let start := indent ++ "<" ++ tag ++ String.concat EmptyString (map attribute attrib) in
      match or_empty text, children with
      | EmptyString, [] => start ++ "/>" ++ nl
      | String c s, [] =>
          start ++ ">" ++ escape (String c s) ++ "</" ++ tag ++ ">" ++ nl
      | s, _ :: _ =>
          start ++ ">" ++ nl
          ++ (if PyStr.truthy s then escape (indent ++ "  " ++ s ++ nl) else EmptyString)
          ++ (fix each (l : list Element) : string :=
                match l with
                | [] => EmptyString
                | x :: l' => writexml (indent ++ "  ") x ++ each l'
                end) children
          ++ indent ++ "</" ++ tag ++ ">" ++ nl
      end
  end.

(** [document.toprettyxml(indent="  ")] *)
Definition toprettyxml (document : Element) : string :=
  "<?xml version=" ++ quote ++ "1.0" ++ quote ++ " ?>" ++ nl ++ writexml EmptyString document.

End PyXml.

(** ** Column detection shared by the two front ends *)

(** The four [find_column] calls *)
Definition detect (fieldnames : option (list string)) (f : Field) : option string :=
  find_column fieldnames (POSSIBLE_HEADERS f).

(** Truth value of a detected column: [None] and the empty text are false. *)
Definition col_truthy (c : option string) : bool :=
  match c with
  | None => false
  | Some s => PyStr.truthy s
  end.

(** [all([ts_col, lat_col, lon_col, ele_col])] *)
Definition all_detected (fieldnames : option (list string)) : bool :=
  col_truthy (detect fieldnames timestamp) && col_truthy (detect fieldnames latitude)
  && col_truthy (detect fieldnames longitude) && col_truthy (detect fieldnames elevation).

Definition columns_of (fieldnames : option (list string)) : Columns :=
  mkColumns (or_empty (detect fieldnames timestamp)) (or_empty (detect fieldnames latitude))
            (or_empty (detect fieldnames longitude)) (or_empty (detect fieldnames elevation)).

(** The tree built before and during the loop, with the track filled in. *)
Definition kml_document (input_basename placemark_label : string) (points : list Element)
  : Element :=
  Elem "kml"
    [("xmlns", "http://www.opengis.net/kml/2.2");
     ("xmlns:gx", "http://www.google.com/kml/ext/2.2")]
    None
    [Elem "Document" [] None
       [text_element "name" ("Drone Flight Track - " ++ input_basename);
        Elem "Placemark" [] None
          [text_element "name" (placemark_label ++ input_basename);
           Elem "gx:Track" [] None points]]].

(** ** [csv_to_kml.py] *)

Module Cli.

(** How a run ends: [sys.exit(status)]; the output file written, with
    the pretty-printed text of [document] (the document as read back)
    for its content; or an exception that nothing caught. *)
Inductive Ending : Type :=
| Exit (status : nat)
| Finished (kml_file : string) (document : Element)
| Uncaught (e : exn).

(** What a run shows: the texts passed to [print], in order, and its
    ending. *)
Record Run : Type := mkRun { stdout : list string; ending : Ending }.

Definition print_detected_columns (fieldnames : option (list string))
           (ts lat lon ele : option string) : list string :=
  ["Available CSV headers:";
   match fieldnames with
   | Some (h :: hs) =>
       "  " ++ PyStr.join ", " (map (fun h => "'" ++ h ++ "'") (h :: hs))
   | _ => "  (no headers detected)"
   end;
   "Detected columns:";
   "  timestamp -> " ++ PyStr.repr_opt ts;
   "  latitude  -> " ++ PyStr.repr_opt lat;
   "  longitude -> " ++ PyStr.repr_opt lon;
   "  elevation -> " ++ PyStr.repr_opt ele].

Definition newline : string := String "010" EmptyString.

Definition warning : string :=
  "Warning: no valid rows were written to KML. Check your CSV and detected columns above.".

(** The prints after the file is written *)
Definition summary (kml_file : string) (st : Loop) : list string :=
  List.app
    [newline ++ "Finished writing KML to: " ++ kml_file;
     "Rows processed: " ++ PyStr.of_nat (total_rows st);
     "  Rows written: " ++ PyStr.of_nat (rows_written st);
     "  Rows skipped (invalid/missing data): " ++ PyStr.of_nat (rows_skipped st);
     "  Rows skipped due to invalid coordinates (0.0): "
       ++ PyStr.of_nat (rows_invalid_coords st)]
    (if rows_written st =? 0 then [warning] else []).

(** [csv_to_kml(csv_file, kml_file)], where the reader over [csv_file]
    gives the header list [fieldnames] and the rows [rows]. *)
Definition csv_to_kml (csv_file kml_file : string)
           (fieldnames : option (list string)) (rows : list Row) : Run :=
  let input_basename := PyPath.splitext_root (PyPath.basename csv_file) in
  let detected :=
    print_detected_columns fieldnames
      (detect fieldnames timestamp) (detect fieldnames latitude)
      (detect fieldnames longitude) (detect fieldnames elevation) in
  if negb (all_detected fieldnames) then
    mkRun (List.app detected
             [newline ++ "Error: Could not detect all required columns in CSV. Aborting."])
          (Exit 1)
  else
    match run_loop (columns_of fieldnames) loop_start rows with
    | Raise e => mkRun detected (Uncaught e)
    | Ok st =>
        match PyXml.reparse (kml_document input_basename "UAS - " (track st)) with
        | Raise e => mkRun detected (Uncaught e)
        | Ok document =>
            mkRun (List.app detected (summary kml_file st)) (Finished kml_file document)
        end
    end.

(** [out.write(reparsed.toprettyxml(indent="  "))]: the text written to
    the output file, if the run gets there. *)
Definition file_text (run : Run) : option string :=
  match ending run with
  | Finished _ document => Some (PyXml.toprettyxml document)
  | _ => None
  end.

End Cli.

(** ** [csv-to-kml_iphone.py] *)

Module Iphone.

(** What [process_csv] leaves: the log text it returns and the file it
    saved, if any, as its path and the document (as read back) whose
    pretty-printed text is its content. *)
Record Processed : Type := mkProcessed {
  log : string;
  saved : option (string * Element)
}.

Definition newline : string := String "010" EmptyString.

(** The entries appended to [log] before the columns are checked *)
Definition log_head (csv_file : string) (ts lat lon ele : option string) : list string :=
  ["Processing: " ++ PyPath.basename csv_file;
   "Detected columns:";
   "  timestamp -> " ++ PyStr.repr_opt ts;
   "  latitude  -> " ++ PyStr.repr_opt lat;
   "  longitude -> " ++ PyStr.repr_opt lon;
   "  elevation -> " ++ PyStr.repr_opt ele].

(** The entries appended after the file is written *)
Definition log_tail (output_file : string) (st : Loop) : list string :=
  ["Saved KML: " ++ output_file;
   "Rows processed: " ++ PyStr.of_nat (total_rows st);
   "  Rows written: " ++ PyStr.of_nat (rows_written st);
   "  Rows skipped (invalid/missing data): " ++ PyStr.of_nat (rows_skipped st);
   "  Rows skipped due to invalid coordinates (0.0): "
     ++ PyStr.of_nat (rows_invalid_coords st)].

(** [process_csv(csv_file, output_dir)], where the reader over
    [csv_file] gives [fieldnames] and [rows]. *)
Definition process_csv (csv_file output_dir : string)
           (fieldnames : option (list string)) (rows : list Row) : result Processed :=
  let input_basename := PyPath.splitext_root (PyPath.basename csv_file) in
  let output_file := PyPath.join output_dir (input_basename ++ ".kml") in
  let head :=
    log_head csv_file
      (detect fieldnames timestamp) (detect fieldnames latitude)
      (detect fieldnames longitude) (detect fieldnames elevation) in
  if negb (all_detected fieldnames) then
    Ok (mkProcessed
          (PyStr.join newline
             (List.app head ["Error: Could not detect all required columns. Skipping."]))
          None)
  else
    match run_loop (columns_of fieldnames) loop_start rows with
    | Raise e => Raise e
    | Ok st =>
        match PyXml.reparse (kml_document input_basename "Flight Path - " (track st)) with
        | Raise e => Raise e
        | Ok document =>
            Ok (mkProcessed
                  (PyStr.join newline (List.app head (log_tail output_file st)))
                  (Some (output_file, document)))
        end
    end.

(** [out.write(reparsed.toprettyxml(indent="  "))]: the text written to
    the saved file, if there is one. *)
Definition file_text (p : Processed) : option string :=
  match saved p with
  | Some (_, document) => Some (PyXml.toprettyxml document)
  | None => None
  end.

End Iphone.

(** ** The script part of [csv_to_kml.py]

    The statements under [if __name__ == '__main__']. *)

Module CliScript.

(** What the reader over a file gives: the header list and the rows. *)
Definition Reader : Type := string -> option (list string) * list Row.

Definition usage : string := "Usage: python3 csv_to_kml.py input.csv output.kml".

(** The script run with the argument list [argv] ([sys.argv], the
    program name first). *)
Definition main (argv : list string) (reader : Reader) : Cli.Run :=
  match argv with
  | [_; csv_file; kml_file] =>
      Cli.csv_to_kml csv_file kml_file (fst (reader csv_file)) (snd (reader csv_file))
  | _ => Cli.mkRun [usage] (Cli.Exit 1)
  end.

End CliScript.

(** ** [main] of [csv-to-kml_iphone.py] *)

Module IphoneScript.

(** What [main] shows at its end: the alert of [dialogs.alert], or the
    text view presented as a sheet. *)
Inductive Screen : Type :=
| Alert (title message button : string)
| Sheet (text : string) (editable : bool) (font : string * nat).

(** A run of [main]: the screen shown and the files saved, in order. *)
Record Session : Type := mkSession {
  screen : Screen;
  files : list (string * Element)
}.

(** [s.endswith(suffix)] *)
Definition endswith (suffix s : string) : bool :=
  (String.length suffix <=? String.length s)
  && String.eqb (String.substring (String.length s - String.length suffix)
                                  (String.length suffix) s) suffix.

(** [f.lower().endswith('.csv')] *)
Definition is_csv (f : string) : bool := endswith ".csv" (PyStr.lower f).

Definition input_dir (base_dir : string) : string := PyPath.join base_dir "DroneCSV_Input".
Definition output_dir (base_dir : string) : string := PyPath.join base_dir "KML_Output".

(** [[os.path.join(input_dir, f) for f in os.listdir(input_dir) if f.lower().endswith('.csv')]] *)
Definition csv_files (base_dir : string) (listing : list string) : list string :=
  map (PyPath.join (input_dir base_dir)) (filter is_csv listing).

(** [for f in csv_files: logs.append(process_csv(f, output_dir))]: the
    logs gathered and the files saved, in order, and the exception that
    ended the loop, if one did. *)
Fixpoint process_all (out_dir : string) (reader : CliScript.Reader) (paths : list string)
  : list string * list (string * Element) * option exn :=
  match paths with
  | [] => ([], [], None)
  | f :: rest =>
      match Iphone.process_csv f out_dir (fst (reader f)) (snd (reader f)) with
      | Raise e => ([], [], Some e)
      | Ok p =>
          let '(logs, saved, failure) := process_all out_dir reader rest in
          (Iphone.log p :: logs,
           match Iphone.saved p with
           | Some file => file :: saved
           | None => saved
           end,
           failure)
      end
  end.

Definition blank_line : string := Iphone.newline ++ Iphone.newline.

(** [main()], where [base_dir] is the expanded [~/Documents], [listing]
    what [os.listdir] gives for the input folder and [reader] what the
    reader gives for each file. *)
Definition main (base_dir : string) (listing : list string) (reader : CliScript.Reader)
  : result Session :=
  match csv_files base_dir listing with
  | [] =>
      Ok (mkSession
            (Alert "No CSV files found"
                   ("No CSV files found in:" ++ Iphone.newline ++ input_dir base_dir)
                   "OK")
            [])
  | paths =>
      match process_all (output_dir base_dir) reader paths with
      | (_, _, Some e) => Raise e
      | (logs, saved, None) =>
          Ok (mkSession
                (Sheet ("Input folder:" ++ Iphone.newline ++ input_dir base_dir ++ blank_line
                        ++ "Output folder:" ++ Iphone.newline ++ output_dir base_dir
                        ++ blank_line ++ PyStr.join blank_line logs)
                       false ("Menlo", 12))
                saved)
      end
  end.

(** The files a run of [main] saves, whether it ends normally or with
    an exception. *)
Definition files_saved (base_dir : string) (listing : list string)
           (reader : CliScript.Reader) : list (string * Element) :=
  snd (fst (process_all (output_dir base_dir) reader (csv_files base_dir listing))).

End IphoneScript.

(** * Notions of the specification *)

(** [h] is a non-empty header of [hs], and no non-empty header after it
    has the same key. *)
Definition last_of_its_key (hs : list string) (h : string) : Prop :=
  h <> EmptyString /\
  exists l1 l2, hs = (l1 ++ h :: l2)%list /\
    forall h', In h' l2 -> h' <> EmptyString -> key_of h' <> key_of h.

(** The lengths never decrease along the sorted list. *)
Fixpoint ascending (l : list string) : Prop :=
  match l with
  | [] => True
  | x :: l' => (forall c, In c l' -> String.length x <= String.length c) /\ ascending l'
  end.

(** The three ways a row is counted. *)
Inductive RowClass : Type := Written | SkippedMissing | SkippedZeroCoord.

(** [st'] is [st] after one more row, counted in the class [c]: the row
    count and the counter of [c] went up by one, the two other counters
    did not move. *)
Definition counted (c : RowClass) (st st' : Loop) : Prop :=
  total_rows st' = S (total_rows st) /\
  match c with
  | Written =>
      rows_written st' = S (rows_written st) /\
      rows_skipped st' = rows_skipped st /\
      rows_invalid_coords st' = rows_invalid_coords st
  | SkippedMissing =>
      rows_written st' = rows_written st /\
      rows_skipped st' = S (rows_skipped st) /\
      rows_invalid_coords st' = rows_invalid_coords st
  | SkippedZeroCoord =>
      rows_written st' = rows_written st /\
      rows_skipped st' = rows_skipped st /\
      rows_invalid_coords st' = S (rows_invalid_coords st)
  end.

(** The class of a row in the words of the specification: no timestamp
    or a cell that is not a number, then a zero latitude or longitude,
    otherwise a written row. *)
Definition classify (cols : Columns) (row : Row) : RowClass :=
  if negb (PyStr.truthy (cell row (ts_col cols))) then SkippedMissing
  else
    match PyFloat.of_string (cell row (lat_col cols)),
          PyFloat.of_string (cell row (lon_col cols)),
          PyFloat.of_string (cell row (ele_col cols)) with
    | Some lat, Some lon, Some _ =>
        if PyFloat.eqb lat PyFloat.zero || PyFloat.eqb lon PyFloat.zero
        then SkippedZeroCoord else Written
    | _, _, _ => SkippedMissing
    end.

(** The elements a row adds to the track in the words of the
    specification: for a written row, its trimmed timestamp in a [when]
    element, then its longitude, latitude and elevation in a [gx:coord]
    element; nothing for any other row. *)
Definition point_elements (cols : Columns) (row : Row) : list Element :=
  match classify cols row,
        PyFloat.of_string (cell row (lat_col cols)),
        PyFloat.of_string (cell row (lon_col cols)),
        PyFloat.of_string (cell row (ele_col cols)) with
  | Written, Some lat, Some lon, Some ele =>
      [text_element "when" (cell row (ts_col cols));
       text_element "gx:coord"
         (PyFloat.str lon ++ " " ++ PyFloat.str lat ++ " " ++ PyFloat.str ele)]
  | _, _, _, _ => []
  end.

(** The state after a row of a given class, from the state [st] in which
    the row was already counted in [total_rows]. *)
Definition after_row (cols : Columns) (row : Row) (st : Loop) : Loop :=
  match classify cols row with
  | Written =>
      mkLoop (track st ++ point_elements cols row)%list (S (rows_written st))
             (rows_skipped st) (rows_invalid_coords st) (total_rows st)
  | SkippedMissing => count_skipped st
  | SkippedZeroCoord => count_invalid_coords st
  end.

(** Sample columns and rows for the statements below. *)
Definition sample_columns : Columns := mkColumns "timestamp" "lat" "lon" "ele".

Definition sample_row (ts lat lon ele : string) : Row :=
  [("timestamp", Some ts); ("lat", Some lat); ("lon", Some lon); ("ele", Some ele)].

(** Equality of row classes, as a test. *)
Definition class_eqb (a b : RowClass) : bool :=
  match a, b with
  | Written, Written | SkippedMissing, SkippedMissing
  | SkippedZeroCoord, SkippedZeroCoord => true
  | _, _ => false
  end.

(** The number of rows of the class [c]. *)
Definition count_class (cols : Columns) (c : RowClass) (rows : list Row) : nat :=
  List.length (filter (fun row => class_eqb (classify cols row) c) rows).

(** A zero of either sign. *)
Definition is_zero (x : PyFloat.float) : bool :=
  match x with
  | S754_zero _ => true
  | _ => false
  end.

(** The first character of [s] is a blank. *)
Definition starts_blank (s : string) : bool :=
  match s with
  | EmptyString => false
  | String c _ => PyStr.isspace c
  end.

(** The last character of [s] is a blank. *)
Fixpoint ends_blank (s : string) : bool :=
  match s with
  | EmptyString => false
  | String c EmptyString => PyStr.isspace c
  | String _ s' => ends_blank s'
  end.

(** The text of an element, empty when it has none. *)
Definition element_text (e : Element) : string :=
  match e with
  | Elem _ _ text _ => or_empty text
  end.

Definition element_tag (e : Element) : string :=
  match e with
  | Elem tag _ _ _ => tag
  end.

(** The tags of a track: [when] and [gx:coord] in turn. *)
Fixpoint alternating (l : list Element) : Prop :=
  match l with
  | [] => True
  | [_] => False
  | w :: c :: rest =>
      element_tag w = "when" /\ element_tag c = "gx:coord" /\ alternating rest
  end.

(** The text has no slash: a file name rather than a path. *)
Fixpoint no_slash (s : string) : bool :=
  match s with
  | EmptyString => true
  | String c s' => negb (Ascii.eqb c "/") && no_slash s'
  end.

(** The file [process_csv] saves for the input [csv_file]. *)
Definition output_path (out_dir csv_file : string) : string :=
  PyPath.join out_dir (PyPath.splitext_root (PyPath.basename csv_file) ++ ".kml").

(** All four fields have a column in the file that [reader] gives for
    [path]. *)
Definition columns_detected (reader : CliScript.Reader) (path : string) : bool :=
  all_detected (fst (reader path)).

(** The children of an element read back, one after the other. *)
Fixpoint reparse_all (l : list Element) : result (list Element) :=
  match l with
  | [] => Ok []
  | x :: l' =>
      match PyXml.reparse x with
      | Raise err => Raise err
      | Ok x' =>
          match reparse_all l' with
          | Raise err => Raise err
          | Ok r => Ok (x' :: r)
          end
      end
  end.

(** The children of an element written, one after the other. *)
Fixpoint write_all (indent : string) (l : list Element) : string :=
  match l with
  | [] => EmptyString
  | x :: l' => PyXml.writexml indent x ++ write_all indent l'
  end.

(** A character that passes through the writing of the document as it
    is: allowed by XML, not a carriage return, and not one of the four
    characters written as an entity. *)
Definition plain_char (c : ascii) : bool :=
  PyXml.valid_char c && negb (Ascii.eqb c PyXml.cr) && negb (Ascii.eqb c "&")
  && negb (Ascii.eqb c "<") && negb (Ascii.eqb c PyStr.dquote) && negb (Ascii.eqb c ">").

Fixpoint plain (s : string) : bool :=
  match s with
  | EmptyString => true
  | String c s' => plain_char c && plain s'
  end.

(** The timestamp of the row can be written: the row is not a written
    row, or its timestamp has only characters that XML allows. *)
Definition row_writable (cols : Columns) (row : Row) : bool :=
  negb (class_eqb (classify cols row) Written)
  || PyXml.valid_text (cell row (ts_col cols)).

(** The document of a run can be written: the base name of the input
    file and the timestamps of the written rows have only characters
    that XML allows. *)
Definition serializable (input_basename : string) (cols : Columns) (rows : list Row) : bool :=
  PyXml.valid_text input_basename && forallb (row_writable cols) rows.

(** An element with its text as the parser reports it. *)
Definition read_back (e : Element) : Element :=
  match e with
  | Elem tag attrib text children =>
      Elem tag attrib (option_map PyXml.normalize_newlines text) children
  end.

(** The two lines of the output file for a written row; nothing for any
    other row. *)
Definition row_text (cols : Columns) (row : Row) : string :=
  match classify cols row,
        PyFloat.of_string (cell row (lat_col cols)),
        PyFloat.of_string (cell row (lon_col cols)),
        PyFloat.of_string (cell row (ele_col cols)) with
  | Written, Some lat, Some lon, Some ele =>
      "        <when>"
        ++ PyXml.escape (PyXml.normalize_newlines (cell row (ts_col cols)))
        ++ "</when>" ++ PyXml.nl
        ++ "        <gx:coord>"
        ++ PyFloat.str lon ++ " " ++ PyFloat.str lat ++ " " ++ PyFloat.str ele
        ++ "</gx:coord>" ++ PyXml.nl
  | _, _, _, _ => EmptyString
  end.

(** The lines of the output file for the rows, in row order. *)
Fixpoint track_text (cols : Columns) (rows : list Row) : string :=
  match rows with
  | [] => EmptyString
  | row :: rows' => row_text cols row ++ track_text cols rows'
  end.

(** The text of the output file around the lines of the track. *)
Definition kml_text (input_basename label lines : string) : string :=
  "<?xml version=" ++ PyXml.quote ++ "1.0" ++ PyXml.quote ++ " ?>" ++ PyXml.nl
  ++ "<kml xmlns=" ++ PyXml.quote ++ "http://www.opengis.net/kml/2.2" ++ PyXml.quote
  ++ " xmlns:gx=" ++ PyXml.quote ++ "http://www.google.com/kml/ext/2.2" ++ PyXml.quote
  ++ ">" ++ PyXml.nl
  ++ "  <Document>" ++ PyXml.nl
  ++ "    <name>Drone Flight Track - "
  ++ PyXml.escape (PyXml.normalize_newlines input_basename) ++ "</name>" ++ PyXml.nl
  ++ "    <Placemark>" ++ PyXml.nl
  ++ "      <name>" ++ label
  ++ PyXml.escape (PyXml.normalize_newlines input_basename) ++ "</name>" ++ PyXml.nl
  ++ match lines with
     | EmptyString => "      <gx:Track/>" ++ PyXml.nl
     | String _ _ => "      <gx:Track>" ++ PyXml.nl ++ lines ++ "      </gx:Track>" ++ PyXml.nl
     end
  ++ "    </Placemark>" ++ PyXml.nl
  ++ "  </Document>" ++ PyXml.nl
  ++ "</kml>" ++ PyXml.nl.

(** The base name [csv_to_kml] and [process_csv] give to a document. *)
Definition base_name (csv_file : string) : string :=
  PyPath.splitext_root (PyPath.basename csv_file).

(** The file at [path] is converted by [process_csv]: its four columns
    are detected and its document can be written. *)
Definition convertible (reader : CliScript.Reader) (path : string) : bool :=
  columns_detected reader path
  && serializable (base_name path) (columns_of (fst (reader path))) (snd (reader path)).


(** Sample headers, with rows under them, for the statements below. *)
Definition flight_headers : option (list string) :=
  Some ["timestamp"; "latitude"; "longitude"; "elevation"].

Definition flight_row (ts lat lon ele : string) : Row :=
  [("timestamp", Some ts); ("latitude", Some lat);
   ("longitude", Some lon); ("elevation", Some ele)].

(** * Properties *)

(** ** Strings and dictionaries *)

Lemma truthy_false_iff (s : string) : PyStr.truthy s = false <-> s = EmptyString.
Proof. destruct s; simpl; split; congruence. Qed.

Lemma truthy_true_iff (s : string) : PyStr.truthy s = true <-> s <> EmptyString.
Proof. destruct s; simpl; split; congruence. Qed.

Lemma prefix_refl (s : string) : String.prefix s s = true.
Proof.
  induction s as [|c s IH]; simpl; [reflexivity|].
  destruct (ascii_dec c c); congruence.
Qed.

Lemma contains_refl (s : string) : PyStr.contains s s = true.
Proof. destruct s; cbn [PyStr.contains]; rewrite prefix_refl; reflexivity. Qed.

Lemma get_set (d : PyDict.dict) (k v k' : string) :
  PyDict.get (PyDict.set d k v) k' = if String.eqb k k' then Some v else PyDict.get d k'.
Proof.
  induction d as [|[k0 v0] d IH]; simpl; [reflexivity|].
  destruct (String.eqb_spec k0 k) as [->|Hk]; simpl.
  - destruct (String.eqb k k'); reflexivity.
  - rewrite IH. destruct (String.eqb_spec k0 k') as [->|Hk'].
    + destruct (String.eqb_spec k k'); congruence.
    + reflexivity.
Qed.

Lemma get_in (d : PyDict.dict) (k v : string) :
  PyDict.get d k = Some v -> In (k, v) d.
Proof.
  induction d as [|[k0 v0] d IH]; simpl; [discriminate|].
  destruct (String.eqb_spec k0 k) as [->|Hk].
  - intros [= ->]. now left.
  - intros H. right. now apply IH.
Qed.

Lemma in_get (d : PyDict.dict) (k v : string) :
  NoDup (map fst d) -> In (k, v) d -> PyDict.get d k = Some v.
Proof.
  induction d as [|[k0 v0] d IH]; simpl; [intros _ []|].
  intros Hnd [H|H].
  - inversion H; subst. now rewrite String.eqb_refl.
  - inversion Hnd as [|? ? Hnotin Hnd']; subst.
    destruct (String.eqb_spec k0 k) as [->|Hk].
    + exfalso. apply Hnotin. apply in_map_iff. now exists (k, v).
    + now apply IH.
Qed.

Lemma set_keys_in (d : PyDict.dict) (k v x : string) :
  In x (map fst (PyDict.set d k v)) -> x = k \/ In x (map fst d).
Proof.
  induction d as [|[k0 v0] d IH]; simpl.
  - intros [H|[]]; auto.
  - destruct (String.eqb_spec k0 k) as [->|Hk]; simpl.
    + intros [H|H]; auto.
    + intros [H|H]; auto. destruct (IH H); auto.
Qed.

Lemma set_keys_nodup (d : PyDict.dict) (k v : string) :
  NoDup (map fst d) -> NoDup (map fst (PyDict.set d k v)).
Proof.
  induction d as [|[k0 v0] d IH]; simpl.
  - intros _. constructor; [intros []|constructor].
  - intros Hnd. inversion Hnd as [|? ? Hnotin Hnd']; subst.
    destruct (String.eqb_spec k0 k) as [->|Hk]; simpl.
    + now constructor.
    + constructor; [|now apply IH].
      intros Hin. destruct (set_keys_in _ _ _ _ Hin); congruence.
Qed.

(** ** The index of headers *)

Lemma index_snoc (hs : list string) (h : string) :
  lower_to_original (hs ++ [h]) = index_step (lower_to_original hs) h.
Proof. unfold lower_to_original. now rewrite fold_left_app. Qed.

Lemma index_get_snoc (hs : list string) (h k : string) :
  PyDict.get (lower_to_original (hs ++ [h])) k =
  if PyStr.truthy h && String.eqb (key_of h) k then Some h
  else PyDict.get (lower_to_original hs) k.
Proof.
  rewrite index_snoc. unfold index_step.
  destruct (PyStr.truthy h); simpl; [apply get_set | reflexivity].
Qed.

Lemma index_keys_nodup (hs : list string) : NoDup (map fst (lower_to_original hs)).
Proof.
  induction hs as [|h hs IH] using rev_ind.
  - constructor.
  - rewrite index_snoc. unfold index_step.
    destruct (PyStr.truthy h); [now apply set_keys_nodup | assumption].
Qed.

Lemma index_get_last (hs : list string) (h : string) :
  last_of_its_key hs h -> PyDict.get (lower_to_original hs) (key_of h) = Some h.
Proof.
  intros [Hne (l1 & l2 & -> & Hlast)].
  induction l2 as [|x l2 IH] using rev_ind.
  - rewrite index_get_snoc.
    apply truthy_true_iff in Hne. now rewrite Hne, String.eqb_refl.
  - change (l1 ++ h :: l2 ++ [x])%list with (l1 ++ (h :: l2) ++ [x])%list.
    rewrite app_assoc, index_get_snoc.
    destruct (PyStr.truthy x) eqn:Hx; simpl.
    + destruct (String.eqb_spec (key_of x) (key_of h)) as [Heq|_].
      * exfalso. apply (Hlast x); [apply in_or_app; right; now left| |assumption].
        now apply truthy_true_iff.
      * apply IH. intros h' Hin. apply Hlast. apply in_or_app. now left.
    + apply IH. intros h' Hin. apply Hlast. apply in_or_app. now left.
Qed.

Lemma index_get_inv (hs : list string) (k v : string) :
  PyDict.get (lower_to_original hs) k = Some v -> k = key_of v /\ last_of_its_key hs v.
Proof.
  induction hs as [|h hs IH] using rev_ind; [discriminate|].
  rewrite index_get_snoc.
  destruct (PyStr.truthy h) eqn:Hh; simpl.
  - destruct (String.eqb_spec (key_of h) k) as [Heq|Hne].
    + intros [= <-]. split; [auto|]. split; [now apply truthy_true_iff|].
      exists hs, []. split; [reflexivity|]. intros h' [].
    + intros H. destruct (IH H) as [-> [Hv (l1 & l2 & -> & Hlast)]].
      split; [reflexivity|]. split; [assumption|].
      exists l1, (l2 ++ [h])%list. split; [now rewrite <- app_assoc|].
      intros h' Hin Hh'. apply in_app_or in Hin as [Hin|[<-|[]]]; auto.
  - intros H. destruct (IH H) as [-> [Hv (l1 & l2 & -> & Hlast)]].
    split; [reflexivity|]. split; [assumption|].
    exists l1, (l2 ++ [h])%list. split; [now rewrite <- app_assoc|].
    intros h' Hin Hh'. apply in_app_or in Hin as [Hin|[<-|[]]]; auto.
    apply truthy_false_iff in Hh. congruence.
Qed.

Lemma index_entry (hs : list string) (k v : string) :
  In (k, v) (lower_to_original hs) <-> k = key_of v /\ last_of_its_key hs v.
Proof.
  split.
  - intros H. apply index_get_inv. apply in_get; [apply index_keys_nodup | assumption].
  - intros [-> H]. apply get_in. now apply index_get_last.
Qed.

Lemma last_of_its_key_in (hs : list string) (h : string) :
  last_of_its_key hs h -> In h hs.
Proof. intros [_ (l1 & l2 & -> & _)]. apply in_or_app. right. now left. Qed.

(** Every non-empty header has its key in the index. *)
Lemma index_has_key (hs : list string) (h : string) :
  In h hs -> h <> EmptyString -> exists v, PyDict.get (lower_to_original hs) (key_of h) = Some v.
Proof.
  intros Hin Hne. induction hs as [|x hs IH] using rev_ind; [destruct Hin|].
  rewrite index_get_snoc.
  destruct (PyStr.truthy x && String.eqb (key_of x) (key_of h)) eqn:Hc; [eauto|].
  apply in_app_or in Hin as [Hin|[->|[]]]; [auto|].
  apply truthy_true_iff in Hne. now rewrite Hne, String.eqb_refl in Hc.
Qed.

(** ** Sorting the candidates *)

Lemma insert_by_len_hd (x : string) (l : list string) :
  hd_error (insert_by_len x l) =
  match hd_error l with
  | None => Some x
  | Some y => if String.length x <=? String.length y then Some x else Some y
  end.
Proof.
  destruct l as [|y l]; simpl; [reflexivity|].
  destruct (String.length x <=? String.length y); reflexivity.
Qed.

Lemma insert_by_len_in (x c : string) (l : list string) :
  In c (insert_by_len x l) <-> c = x \/ In c l.
Proof.
  induction l as [|y l IH]; simpl; [intuition|].
  destruct (String.length x <=? String.length y); simpl; rewrite ?IH; intuition.
Qed.

Lemma sort_by_len_in (c : string) (l : list string) :
  In c (sort_by_len l) <-> In c l.
Proof.
  induction l as [|x l IH]; simpl; [tauto|].
  rewrite insert_by_len_in, IH. intuition.
Qed.

Lemma insert_by_len_ascending (x : string) (l : list string) :
  ascending l -> ascending (insert_by_len x l).
Proof.
  induction l as [|y l IH]; simpl; [intuition|].
  intros [Hy Hl].
  destruct (Nat.leb_spec (String.length x) (String.length y)) as [Hle|Hgt]; simpl.
  - repeat split; auto. intros c [<-|Hc]; [assumption|]. specialize (Hy c Hc). lia.
  - split; [|auto]. intros c Hc. apply insert_by_len_in in Hc as [->|Hc]; [lia|auto].
Qed.

Lemma sort_by_len_ascending (l : list string) : ascending (sort_by_len l).
Proof.
  induction l as [|x l IH]; simpl; [exact I|]. now apply insert_by_len_ascending.
Qed.

(** The first element after sorting is the first one of least length. *)
Lemma sort_by_len_hd (l : list string) (x : string) :
  hd_error (sort_by_len l) = Some x ->
  exists l1 l2, l = (l1 ++ x :: l2)%list /\
    (forall c, In c l1 -> String.length x < String.length c) /\
    (forall c, In c l2 -> String.length x <= String.length c).
Proof.
  revert x. induction l as [|a l IH]; simpl; [discriminate|].
  intros x. rewrite insert_by_len_hd.
  destruct (hd_error (sort_by_len l)) as [y|] eqn:Hy.
  - destruct (IH y eq_refl) as (l1 & l2 & -> & H1 & H2).
    destruct (Nat.leb_spec (String.length a) (String.length y)) as [Hle|Hgt]; intros [= <-].
    + exists [], (l1 ++ y :: l2)%list. split; [reflexivity|]. split; [intros c []|].
      intros c Hc. apply in_app_or in Hc as [Hc|[<-|Hc]].
      * specialize (H1 c Hc). lia.
      * assumption.
      * specialize (H2 c Hc). lia.
    + exists (a :: l1), l2. split; [reflexivity|]. split; [|assumption].
      intros c [<-|Hc]; auto.
  - intros [= <-]. destruct l as [|b l].
    + exists [], []. repeat split; intros c [].
    + exfalso. assert (Hb : In b (sort_by_len (b :: l))) by (apply sort_by_len_in; now left).
      destruct (sort_by_len (b :: l)); [destruct Hb | discriminate].
Qed.

Lemma sort_by_len_hd_some (l : list string) :
  l <> [] -> exists x, hd_error (sort_by_len l) = Some x.
Proof.
  destruct l as [|a l]; [congruence|]. intros _.
  assert (Ha : In a (sort_by_len (a :: l))) by (apply sort_by_len_in; now left).
  destruct (sort_by_len (a :: l)) as [|x s]; [destruct Ha|]. now exists x.
Qed.

(** ** The two passes *)

Lemma candidates_of_in (d : PyDict.dict) (name c : string) :
  In c (candidates_of d name) <-> exists k, In (k, c) d /\ PyStr.contains name k = true.
Proof.
  unfold candidates_of, PyDict.items. rewrite in_map_iff. split.
  - intros ([k v] & Hv & Hin). simpl in Hv. subst v.
    apply filter_In in Hin as [Hin Hc]. now exists k.
  - intros (k & Hin & Hc). exists (k, c). split; [reflexivity|].
    apply filter_In. now split.
Qed.

Lemma candidates_of_nil (d : PyDict.dict) (name : string) :
  candidates_of d name = [] <-> forall k v, In (k, v) d -> PyStr.contains name k = false.
Proof.
  split.
  - intros Hnil k v Hin. destruct (PyStr.contains name k) eqn:Hc; [|reflexivity].
    assert (Hv : In v (candidates_of d name)) by (apply candidates_of_in; eauto).
    rewrite Hnil in Hv. destruct Hv.
  - intros H. destruct (candidates_of d name) as [|c l] eqn:Hcs; [reflexivity|].
    assert (Hc : In c (candidates_of d name)) by (rewrite Hcs; now left).
    apply candidates_of_in in Hc as (k & Hin & Hc). rewrite (H k c Hin) in Hc. discriminate.
Qed.

(** What the exact pass returns is the index entry of one of the aliases. *)
Lemma exact_pass_some (d : PyDict.dict) (names : list string) (v : string) :
  exact_pass d names = Some v -> exists name, In name names /\ PyDict.get d name = Some v.
Proof.
  induction names as [|name names IH]; simpl; [discriminate|].
  unfold PyDict.mem. destruct (PyDict.get d name) as [w|] eqn:Hg.
  - intros [= <-]. exists name. auto.
  - intros H. destruct (IH H) as (n & Hin & Hn). exists n. auto.
Qed.

Lemma exact_pass_none (d : PyDict.dict) (names : list string) :
  exact_pass d names = None <-> forall name, In name names -> PyDict.get d name = None.
Proof.
  induction names as [|name names IH]; simpl; [intuition|].
  unfold PyDict.mem. destruct (PyDict.get d name) as [w|] eqn:Hg.
  - split; [discriminate|]. intros H. rewrite <- Hg. apply H. now left.
  - rewrite IH. split; [intros H n [<-|Hn]; auto | intros H n Hn; apply H; now right].
Qed.

(** The substring pass skips the aliases that no key contains. *)
Lemma substring_pass_skip (d : PyDict.dict) (pre rest : list string) :
  (forall a, In a pre -> candidates_of d a = []) ->
  substring_pass d (pre ++ rest) = substring_pass d rest.
Proof.
  induction pre as [|a pre IH]; simpl; [reflexivity|].
  intros H. rewrite (H a) by now left. apply IH. intros b Hb. apply H. now right.
Qed.

Lemma substring_pass_first (d : PyDict.dict) (name : string) (rest : list string) :
  candidates_of d name <> [] ->
  substring_pass d (name :: rest) = hd_error (sort_by_len (candidates_of d name)).
Proof.
  cbn [substring_pass]. destruct (candidates_of d name); [congruence | reflexivity].
Qed.

Lemma substring_pass_none (d : PyDict.dict) (names : list string) :
  substring_pass d names = None <-> forall name, In name names -> candidates_of d name = [].
Proof.
  induction names as [|name names IH]; cbn [substring_pass];
    [split; [intros _ n [] | reflexivity]|].
  destruct (candidates_of d name) as [|c l] eqn:Hc.
  - rewrite IH. split; [intros H n [<-|Hn]; auto | intros H n Hn; apply H; now right].
  - split.
    + intros H. exfalso.
      destruct (sort_by_len_hd_some (c :: l)) as [x Hx]; [discriminate|]. congruence.
    + intros H. specialize (H name (or_introl eq_refl)). congruence.
Qed.

Lemma substring_pass_some (d : PyDict.dict) (names : list string) (v : string) :
  substring_pass d names = Some v ->
  exists name, In name names /\ In v (candidates_of d name).
Proof.
  induction names as [|name names IH]; cbn [substring_pass]; [discriminate|].
  destruct (candidates_of d name) as [|c l] eqn:Hc.
  - intros H. destruct (IH H) as (n & Hn & Hv). exists n. split; [now right | assumption].
  - intros H. exists name. split; [now left|]. rewrite Hc.
    apply sort_by_len_in. destruct (sort_by_len (c :: l)); [discriminate|].
    injection H as ->. now left.
Qed.

(** Whatever [find_column] returns is a value of the index. *)
Lemma find_column_some (hs names : list string) (h : string) :
  find_column (Some hs) names = Some h ->
  exists k, In (k, h) (lower_to_original hs).
Proof.
  destruct hs as [|h0 hs]; [discriminate|]. cbn [find_column].
  destruct (exact_pass _ names) as [v|] eqn:He.
  - intros [= ->]. destruct (exact_pass_some _ _ _ He) as (n & _ & Hg).
    exists n. now apply get_in.
  - intros Hs. destruct (substring_pass_some _ _ _ Hs) as (n & _ & Hc).
    apply candidates_of_in in Hc as (k & Hin & _). now exists k.
Qed.

(** ** The resolver *)

(** C7.  [find_column] is a total function: for every header list
    (absent, empty or not) and every alias list it returns either [None],
    the unresolved field, or one of the non-empty headers it was given.
    With no header line or an empty header list the result is [None] for
    any alias list, hence for each of the four fields of any alias table;
    and in general the result is [None] exactly when no alias is
    contained in the key of a non-empty header. *)
Theorem find_column_total_unresolved :
  forall (fieldnames : option (list string)) (names : list string),
    (find_column None names = None /\ find_column (Some []) names = None) /\
    (forall f, detect None f = None /\ detect (Some []) f = None) /\
    (find_column fieldnames names = None \/
     exists hs h, fieldnames = Some hs /\ find_column fieldnames names = Some h /\
                  In h hs /\ h <> EmptyString) /\
    (forall hs, find_column (Some hs) names = None <->
                forall name h, In name names -> In h hs -> h <> EmptyString ->
                               PyStr.contains name (key_of h) = false).
Proof.
  intros fieldnames names. split; [split; reflexivity|]. split; [intros f; split; reflexivity|].
  split.
  - destruct fieldnames as [hs|]; [|now left].
    destruct (find_column (Some hs) names) as [h|] eqn:Hf; [right | now left].
    exists hs, h. split; [reflexivity|]. split; [reflexivity|].
    destruct (find_column_some _ _ _ Hf) as (k & Hin).
    apply index_entry in Hin as [_ Hlast].
    split; [now apply last_of_its_key_in | apply Hlast].
  - intros hs. split.
    + intros Hnone name h Hname Hh Hne.
      destruct hs as [|h0 hs]; [destruct Hh|]. cbn [find_column] in Hnone.
      destruct (exact_pass _ names) eqn:He; [discriminate|].
      destruct (candidates_of_nil (lower_to_original (h0 :: hs)) name) as [Hnil _].
      destruct (index_has_key _ _ Hh Hne) as [v Hv].
      apply (Hnil (proj1 (substring_pass_none _ _) Hnone name Hname) _ v).
      now apply get_in.
    + intros Hno. destruct hs as [|h0 hs]; [reflexivity|]. cbn [find_column].
      assert (Hkeys : forall name k v, In name names ->
                In (k, v) (lower_to_original (h0 :: hs)) -> PyStr.contains name k = false).
      { intros name k v Hname Hin. apply index_entry in Hin as [-> Hlast].
        apply Hno; [assumption | now apply last_of_its_key_in | apply Hlast]. }
      replace (exact_pass (lower_to_original (h0 :: hs)) names) with (@None string).
      * apply substring_pass_none. intros name Hname. apply candidates_of_nil.
        intros k v. now apply Hkeys.
      * symmetry. apply exact_pass_none. intros name Hname.
        destruct (PyDict.get _ name) as [v|] eqn:Hg; [|reflexivity].
        apply get_in in Hg.
        pose proof (contains_refl name) as Hr.
        rewrite (Hkeys name name v Hname Hg) in Hr. discriminate.
Qed.

Lemma possible_headers_nonempty (f : Field) : ~ In EmptyString (POSSIBLE_HEADERS f).
Proof. destruct f; simpl; intuition discriminate. Qed.

Lemma key_of_empty : key_of EmptyString = EmptyString.
Proof. reflexivity. Qed.

(** An exact match ends [find_column] in its first loop. *)
Lemma find_column_exact (hs names : list string) (h : string) :
  In h hs -> In (key_of h) names -> h <> EmptyString ->
  exists h', find_column (Some hs) names = Some h' /\
             exact_pass (lower_to_original hs) names = Some h' /\
             In h' hs /\ In (key_of h') names.
Proof.
  intros Hh Hname Hne.
  destruct hs as [|h0 hs]; [destruct Hh|]. cbn [find_column].
  destruct (exact_pass (lower_to_original (h0 :: hs)) names) as [v|] eqn:He.
  - exists v. split; [reflexivity|]. split; [reflexivity|].
    destruct (exact_pass_some _ _ _ He) as (n & Hn & Hg).
    destruct (index_get_inv _ _ _ Hg) as [-> Hlast].
    split; [now apply last_of_its_key_in | assumption].
  - exfalso. destruct (index_has_key _ _ Hh Hne) as [v Hv].
    rewrite (proj1 (exact_pass_none _ _) He _ Hname) in Hv. discriminate.
Qed.

(** C3.  When some header's trimmed, lower-cased form equals an alias of
    the field, the resolver answers from its exact pass: the header
    returned is one whose key equals an alias, whatever other headers
    merely contain an alias and in whatever order the headers come (the
    statement holds for every rearrangement [hs'] of the list). *)
Theorem exact_match_wins :
  forall (f : Field) (hs hs' : list string) (h : string),
    In h hs -> In (key_of h) (POSSIBLE_HEADERS f) ->
    Permutation.Permutation hs hs' ->
    exists h', detect (Some hs') f = Some h' /\
               exact_pass (lower_to_original hs') (POSSIBLE_HEADERS f) = Some h' /\
               In h' hs' /\ In (key_of h') (POSSIBLE_HEADERS f).
Proof.
  intros f hs hs' h Hh Hname Hperm. unfold detect.
  apply find_column_exact with (h := h).
  - eapply Permutation.Permutation_in; eassumption.
  - assumption.
  - intros ->. rewrite key_of_empty in Hname. now apply possible_headers_nonempty in Hname.
Qed.

Lemma exact_match_wins_witness :
  exists h', detect (Some ["Lat"; "gps_lat_x"]) latitude = Some h' /\
             exact_pass (lower_to_original ["Lat"; "gps_lat_x"]) (POSSIBLE_HEADERS latitude)
               = Some h' /\
             In h' ["Lat"; "gps_lat_x"] /\ In (key_of h') (POSSIBLE_HEADERS latitude).
Proof.
  apply (exact_match_wins latitude ["gps_lat_x"; "Lat"] ["Lat"; "gps_lat_x"] "Lat").
  - simpl. auto.
  - simpl. auto.
  - apply Permutation.perm_swap.
Defined.

(** The candidates of an alias, read on the header list: the non-empty
    headers that are the last of their key and whose key contains the
    alias. *)
Lemma candidates_of_headers (hs : list string) (name c : string) :
  In c (candidates_of (lower_to_original hs) name) <->
  last_of_its_key hs c /\ PyStr.contains name (key_of c) = true.
Proof.
  rewrite candidates_of_in. split.
  - intros (k & Hin & Hc). apply index_entry in Hin as [-> Hlast]. now split.
  - intros [Hlast Hc]. exists (key_of c). split; [|assumption].
    apply index_entry. now split.
Qed.

(** C2, on the input where it fails.  With the headers ["  lat1  "] and
    ["lat_xx"] the exact pass for the latitude finds nothing, the alias
    [latitude] is in no key and the alias [lat] is in both keys, [lat1]
    and [lat_xx].  The shorter key belongs to ["  lat1  "], but the
    resolver returns ["lat_xx"]: the candidates are sorted by the length
    of the headers as written, spaces included. *)
Lemma shortest_key_not_chosen :
  exact_pass (lower_to_original ["  lat1  "; "lat_xx"]) (POSSIBLE_HEADERS latitude) = None /\
  candidates_of (lower_to_original ["  lat1  "; "lat_xx"]) "latitude" = [] /\
  candidates_of (lower_to_original ["  lat1  "; "lat_xx"]) "lat" = ["  lat1  "; "lat_xx"] /\
  String.length (key_of "  lat1  ") < String.length (key_of "lat_xx") /\
  find_column (Some ["  lat1  "; "lat_xx"]) (POSSIBLE_HEADERS latitude) = Some "lat_xx".
Proof.
  repeat split; try reflexivity. simpl. lia.
Qed.

(** C2, amended.  When the exact pass finds nothing, [find_column]
    returns, for the first alias contained in some key of the index, the
    matching header that is shortest as written (not the one with the
    shortest key); among matching headers of that length it returns the
    one whose key comes first in the index. *)
Theorem substring_match_shortest_original :
  forall (hs pre post : list string) (name : string),
    exact_pass (lower_to_original hs) (pre ++ name :: post) = None ->
    (forall a k v, In a pre -> In (k, v) (lower_to_original hs) ->
                   PyStr.contains a k = false) ->
    (exists k v, In (k, v) (lower_to_original hs) /\ PyStr.contains name k = true) ->
    exists h l1 l2,
      find_column (Some hs) (pre ++ name :: post) = Some h /\
      candidates_of (lower_to_original hs) name = (l1 ++ h :: l2)%list /\
      (forall c, In c l1 -> String.length h < String.length c) /\
      (forall c, In c l2 -> String.length h <= String.length c) /\
      In h hs /\ PyStr.contains name (key_of h) = true.
Proof.
  intros hs pre post name Hexact Hpre (k & v & Hin & Hc).
  assert (Hcands : candidates_of (lower_to_original hs) name <> []).
  { intros Hnil. rewrite candidates_of_nil in Hnil. rewrite (Hnil k v Hin) in Hc. discriminate. }
  destruct (sort_by_len_hd_some _ Hcands) as [h Hh].
  destruct (sort_by_len_hd _ _ Hh) as (l1 & l2 & Hsplit & H1 & H2).
  exists h, l1, l2.
  assert (Hmem : In h (candidates_of (lower_to_original hs) name)).
  { rewrite Hsplit. apply in_or_app. right. now left. }
  apply candidates_of_headers in Hmem as [Hlast Hcont].
  repeat split; try assumption; [|now apply last_of_its_key_in].
  destruct hs as [|h0 hs]; [destruct Hin|]. cbn [find_column]. rewrite Hexact.
  rewrite substring_pass_skip.
  - rewrite substring_pass_first by assumption. assumption.
  - intros a Ha. apply candidates_of_nil. intros k' v'. now apply Hpre.
Qed.

Lemma substring_match_shortest_original_witness :
  exists h l1 l2,
    find_column (Some ["  lat1  "; "lat_xx"; "xlat_y"]) (["latitude"] ++ "lat" :: ["lat_deg"])
      = Some h /\
    candidates_of (lower_to_original ["  lat1  "; "lat_xx"; "xlat_y"]) "lat"
      = (l1 ++ h :: l2)%list /\
    (forall c, In c l1 -> String.length h < String.length c) /\
    (forall c, In c l2 -> String.length h <= String.length c) /\
    In h ["  lat1  "; "lat_xx"; "xlat_y"] /\ PyStr.contains "lat" (key_of h) = true.
Proof.
  apply (substring_match_shortest_original
           ["  lat1  "; "lat_xx"; "xlat_y"] ["latitude"] ["lat_deg"] "lat").
  - reflexivity.
  - intros a k v [<-|[]] Hin. simpl in Hin.
    destruct Hin as [H|[H|[H|[]]]]; inversion H; reflexivity.
  - exists "lat1", "  lat1  ". split; [simpl; auto | reflexivity].
Defined.

(** C8, on the input where it fails.  The headers [" "] and the empty header both
    have the empty key, yet the later one does not win: an empty header
    never enters the index, which keeps [" "], and an alias list that
    matches the empty key gets the earlier header. *)
Lemma empty_later_header_does_not_win :
  key_of " " = key_of EmptyString /\
  lower_to_original [" "; EmptyString] = [(EmptyString, " ")] /\
  PyDict.get (lower_to_original [" "; EmptyString]) (key_of EmptyString) = Some " " /\
  find_column (Some [" "; EmptyString]) [EmptyString] = Some " ".
Proof. repeat split; reflexivity. Qed.

(** C8, amended.  The resolver is a function of its input, so two calls
    with the same input agree.  When it returns a header, that header is
    non-empty and is the last of the non-empty headers with its key:
    every non-empty header that collapses to the same key is mapped by
    the index to the returned, latest one.  (An empty header is never
    indexed and never returned.) *)
Theorem later_nonempty_header_wins :
  forall (hs names : list string) (h : string),
    find_column (Some hs) names = Some h ->
    (forall r1 r2, r1 = find_column (Some hs) names -> r2 = find_column (Some hs) names ->
                   r1 = r2) /\
    last_of_its_key hs h /\
    (forall g, In g hs -> g <> EmptyString -> key_of g = key_of h ->
               PyDict.get (lower_to_original hs) (key_of g) = Some h).
Proof.
  intros hs names h Hf. split; [congruence|].
  destruct (find_column_some _ _ _ Hf) as (k & Hin).
  apply index_entry in Hin as [-> Hlast]. split; [assumption|].
  intros g _ _ ->. now apply index_get_last.
Qed.

Lemma later_nonempty_header_wins_witness :
  (forall r1 r2, r1 = find_column (Some ["Lat"; "lat"]) (POSSIBLE_HEADERS latitude) ->
                 r2 = find_column (Some ["Lat"; "lat"]) (POSSIBLE_HEADERS latitude) ->
                 r1 = r2) /\
  last_of_its_key ["Lat"; "lat"] "lat" /\
  (forall g, In g ["Lat"; "lat"] -> g <> EmptyString -> key_of g = key_of "lat" ->
             PyDict.get (lower_to_original ["Lat"; "lat"]) (key_of g) = Some "lat").
Proof.
  apply (later_nonempty_header_wins ["Lat"; "lat"] (POSSIBLE_HEADERS latitude) "lat").
  reflexivity.
Defined.

(** ** The row loop *)

(** The monad of the [try] block *)

Lemma outcome_bind {A B : Type} (c : Try A) (k : A -> Try B) :
  outcome (bind c k) =
  match outcome c with
  | Ok a => outcome (k a)
  | Raise e => Raise e
  end.
Proof. unfold bind. destruct (outcome c); reflexivity. Qed.

Lemma float_calls_bind {A B : Type} (c : Try A) (k : A -> Try B) :
  float_calls (bind c k) =
  match outcome c with
  | Ok a => (float_calls c ++ float_calls (k a))%list
  | Raise _ => float_calls c
  end.
Proof. unfold bind. destruct (outcome c); reflexivity. Qed.

Lemma outcome_float_of (text : string) :
  outcome (float_of text) =
  match PyFloat.of_string text with
  | Some x => Ok x
  | None => Raise ValueError
  end.
Proof. reflexivity. Qed.

Lemma counted_unique (c c' : RowClass) (st st' : Loop) :
  counted c st st' -> counted c' st st' -> c = c'.
Proof. unfold counted. destruct c, c'; intros; try reflexivity; lia. Qed.

(** Runs the next call of [float] in the goal and splits on its answer,
    closing the branch where it raises. *)
Ltac next_float x :=
  rewrite outcome_bind, outcome_float_of;
  match goal with
  | |- context [PyFloat.of_string ?s] =>
      destruct (PyFloat.of_string s) as [x|]; [|reflexivity]
  end.

Section RowLoop.

Variable cols : Columns.

Lemma after_row_counted (row : Row) (st : Loop) :
  counted (classify cols row) st (after_row cols row (count_row st)).
Proof. unfold counted, after_row. destruct (classify cols row); simpl; auto. Qed.

Lemma after_row_track (row : Row) (st : Loop) :
  track (after_row cols row st) = (track st ++ point_elements cols row)%list.
Proof.
  unfold after_row, point_elements.
  destruct (classify cols row); simpl; rewrite ?app_nil_r; reflexivity.
Qed.

(** One iteration of the loop does what the classification says. *)
Lemma loop_body_after_row (st : Loop) (row : Row) :
  loop_body cols st row = Ok (after_row cols row (count_row st)).
Proof.
  unfold loop_body, try_block, after_row, point_elements, classify.
  destruct (PyStr.truthy (cell row (ts_col cols))); simpl; [|reflexivity].
  next_float lat. next_float lon. next_float ele.
  destruct (PyFloat.eqb lat PyFloat.zero || PyFloat.eqb lon PyFloat.zero); reflexivity.
Qed.

Lemma run_loop_cons (st : Loop) (row : Row) (rows : list Row) :
  run_loop cols st (row :: rows) = run_loop cols (after_row cols row (count_row st)) rows.
Proof. cbn [run_loop]. now rewrite loop_body_after_row. Qed.

(** The loop ends normally, whatever the rows; its final state is
    known row by row. *)
Lemma run_loop_ok (rows : list Row) (st : Loop) :
  exists st', run_loop cols st rows = Ok st' /\
    total_rows st' = total_rows st + List.length rows /\
    rows_written st' + rows_skipped st' + rows_invalid_coords st' =
      rows_written st + rows_skipped st + rows_invalid_coords st + List.length rows /\
    track st' = (track st ++ flat_map (point_elements cols) rows)%list.
Proof.
  revert st. induction rows as [|row rows IH]; intros st.
  - exists st. simpl. rewrite app_nil_r. repeat split; lia.
  - rewrite run_loop_cons.
    destruct (IH (after_row cols row (count_row st))) as (st' & Hrun & Htot & Hsum & Htrack).
    exists st'. split; [assumption|].
    pose proof (after_row_counted row st) as Hc.
    rewrite Htot, Hsum, Htrack, after_row_track. cbn [flat_map List.length].
    rewrite <- app_assoc. unfold counted in Hc.
    destruct (classify cols row); repeat split; simpl; lia.
Qed.

End RowLoop.

(** ** The two front ends after the loop *)

(** [csv_to_kml] with its four columns: the loop ends, and the run ends
    as the reading back of the document does. *)
Lemma cli_outcome (csv_file kml_file : string) (fieldnames : option (list string))
      (rows : list Row) :
  all_detected fieldnames = true ->
  exists st,
    run_loop (columns_of fieldnames) loop_start rows = Ok st /\
    track st = flat_map (point_elements (columns_of fieldnames)) rows /\
    Cli.csv_to_kml csv_file kml_file fieldnames rows =
    match PyXml.reparse (kml_document (base_name csv_file) "UAS - " (track st)) with
    | Raise e =>
        Cli.mkRun
          (Cli.print_detected_columns fieldnames
             (detect fieldnames timestamp) (detect fieldnames latitude)
             (detect fieldnames longitude) (detect fieldnames elevation))
          (Cli.Uncaught e)
    | Ok document =>
        Cli.mkRun
          (List.app
             (Cli.print_detected_columns fieldnames
                (detect fieldnames timestamp) (detect fieldnames latitude)
                (detect fieldnames longitude) (detect fieldnames elevation))
             (Cli.summary kml_file st))
          (Cli.Finished kml_file document)
    end.
Proof.
  intros Hall.
  destruct (run_loop_ok (columns_of fieldnames) rows loop_start) as (st & Hrun & _ & _ & Ht).
  exists st. split; [assumption|]. split; [exact Ht|].
  unfold Cli.csv_to_kml, base_name. now rewrite Hall, Hrun.
Qed.

(** [process_csv] with its four columns, likewise. *)
Lemma iphone_outcome (csv_file output_dir : string) (fieldnames : option (list string))
      (rows : list Row) :
  all_detected fieldnames = true ->
  exists st,
    run_loop (columns_of fieldnames) loop_start rows = Ok st /\
    track st = flat_map (point_elements (columns_of fieldnames)) rows /\
    Iphone.process_csv csv_file output_dir fieldnames rows =
    match PyXml.reparse (kml_document (base_name csv_file) "Flight Path - " (track st)) with
    | Raise e => Raise e
    | Ok document =>
        Ok (Iphone.mkProcessed
              (PyStr.join Iphone.newline
                 (List.app
                    (Iphone.log_head csv_file
                       (detect fieldnames timestamp) (detect fieldnames latitude)
                       (detect fieldnames longitude) (detect fieldnames elevation))
                    (Iphone.log_tail (output_path output_dir csv_file) st)))
              (Some (output_path output_dir csv_file, document)))
    end.
Proof.
  intros Hall.
  destruct (run_loop_ok (columns_of fieldnames) rows loop_start) as (st & Hrun & _ & _ & Ht).
  exists st. split; [assumption|]. split; [exact Ht|].
  unfold Iphone.process_csv, base_name, output_path. now rewrite Hall, Hrun.
Qed.

(** ** Counters *)

(** C1.  Each row moves exactly one of the three counters, by one, and
    the row count by one; after all the rows the three counters add up
    to [total_rows], which is the number of rows.  The loop is the same
    in [csv_to_kml] and in [process_csv], and both report the counters
    of its final state. *)
Theorem counters_partition_rows :
  forall (cols : Columns) (rows : list Row),
    (forall st row, exists st' c,
        loop_body cols st row = Ok st' /\ counted c st st' /\
        forall c', counted c' st st' -> c' = c) /\
    (exists st, run_loop cols loop_start rows = Ok st /\
                total_rows st = List.length rows /\
                rows_written st + rows_skipped st + rows_invalid_coords st = total_rows st).
Proof.
  intros cols rows. split.
  - intros st row. exists (after_row cols row (count_row st)), (classify cols row).
    split; [apply loop_body_after_row|]. split; [apply after_row_counted|].
    intros c' Hc'. eapply counted_unique; [eassumption | apply after_row_counted].
  - destruct (run_loop_ok cols rows loop_start) as (st & Hrun & Htot & Hsum & _).
    exists st. simpl in Htot, Hsum. repeat split; [assumption | lia | lia].
Qed.

(** ** Skipped and written rows *)

Lemma classify_missing_iff (cols : Columns) (row : Row) :
  classify cols row = SkippedMissing <->
  cell row (ts_col cols) = EmptyString \/
  PyFloat.of_string (cell row (lat_col cols)) = None \/
  PyFloat.of_string (cell row (lon_col cols)) = None \/
  PyFloat.of_string (cell row (ele_col cols)) = None.
Proof.
  unfold classify.
  destruct (PyStr.truthy (cell row (ts_col cols))) eqn:Hts; simpl.
  - apply truthy_true_iff in Hts.
    destruct (PyFloat.of_string (cell row (lat_col cols))) as [lat|];
      [|split; auto].
    destruct (PyFloat.of_string (cell row (lon_col cols))) as [lon|];
      [|split; auto].
    destruct (PyFloat.of_string (cell row (ele_col cols))) as [ele|];
      [|split; auto].
    destruct (PyFloat.eqb lat PyFloat.zero || PyFloat.eqb lon PyFloat.zero);
      (split; [discriminate | intros [H|[H|[H|H]]]; congruence]).
  - apply truthy_false_iff in Hts. split; auto.
Qed.

(** C4.  Every row is dealt with inside the loop, which goes on with the
    rows that follow: no row makes the loop raise.  A row is counted as
    skipped for missing or invalid data if and only if its trimmed
    timestamp is empty or one of its latitude, longitude, elevation
    cells is refused by [float]; and with an empty timestamp [float] is
    not called at all. *)
Theorem skipped_missing_iff :
  forall (cols : Columns) (st : Loop) (row : Row),
    exists st',
      loop_body cols st row = Ok st' /\
      (counted SkippedMissing st st' <->
       cell row (ts_col cols) = EmptyString \/
       PyFloat.of_string (cell row (lat_col cols)) = None \/
       PyFloat.of_string (cell row (lon_col cols)) = None \/
       PyFloat.of_string (cell row (ele_col cols)) = None) /\
      (cell row (ts_col cols) = EmptyString ->
       float_calls (try_block cols (count_row st) row) = []) /\
      (forall rows, exists st_end,
          run_loop cols st (row :: rows) = Ok st_end /\
          total_rows st_end = total_rows st + S (List.length rows)).
Proof.
  intros cols st row. exists (after_row cols row (count_row st)).
  split; [apply loop_body_after_row|]. split; [|split].
  - rewrite <- classify_missing_iff. pose proof (after_row_counted cols row st) as Hc. split.
    + intros H. eapply counted_unique; eassumption.
    + intros <-. assumption.
  - intros Hts. unfold try_block. rewrite Hts. reflexivity.
  - intros rows. destruct (run_loop_ok cols (row :: rows) st) as (st_end & Hrun & Htot & _).
    exists st_end. split; [assumption|]. simpl in Htot. lia.
Qed.

(** C5.  A row with a timestamp and three cells that [float] accepts,
    whose latitude or longitude equals 0.0, is counted as skipped for
    invalid coordinates, whatever its elevation, 0.0 included: it is
    neither written nor counted as missing, and the track is unchanged. *)
Theorem zero_coordinate_skipped :
  forall (cols : Columns) (st : Loop) (row : Row) (lat lon ele : PyFloat.float),
    cell row (ts_col cols) <> EmptyString ->
    PyFloat.of_string (cell row (lat_col cols)) = Some lat ->
    PyFloat.of_string (cell row (lon_col cols)) = Some lon ->
    PyFloat.of_string (cell row (ele_col cols)) = Some ele ->
    PyFloat.eqb lat PyFloat.zero = true \/ PyFloat.eqb lon PyFloat.zero = true ->
    exists st',
      loop_body cols st row = Ok st' /\
      counted SkippedZeroCoord st st' /\
      ~ counted Written st st' /\ ~ counted SkippedMissing st st' /\
      track st' = track st.
Proof.
  intros cols st row lat lon ele Hts Hlat Hlon Hele Hzero.
  assert (Hclass : classify cols row = SkippedZeroCoord).
  { unfold classify. apply truthy_true_iff in Hts. rewrite Hts, Hlat, Hlon, Hele. simpl.
    destruct Hzero as [-> | ->]; [reflexivity | now rewrite orb_true_r]. }
  exists (after_row cols row (count_row st)).
  pose proof (after_row_counted cols row st) as Hc. rewrite Hclass in Hc.
  split; [apply loop_body_after_row|]. split; [assumption|].
  repeat split.
  - intros H. pose proof (counted_unique _ _ _ _ H Hc). discriminate.
  - intros H. pose proof (counted_unique _ _ _ _ H Hc). discriminate.
  - unfold after_row. rewrite Hclass. reflexivity.
Qed.

Lemma zero_coordinate_skipped_witness :
  exists st',
    loop_body sample_columns loop_start
              (sample_row "2025-01-01T00:00:00Z" "0.0" "12.3" "0.0") = Ok st' /\
    counted SkippedZeroCoord loop_start st' /\
    ~ counted Written loop_start st' /\ ~ counted SkippedMissing loop_start st' /\
    track st' = track loop_start.
Proof.
  eapply (zero_coordinate_skipped sample_columns loop_start
            (sample_row "2025-01-01T00:00:00Z" "0.0" "12.3" "0.0")).
  - discriminate.
  - vm_compute. reflexivity.
  - vm_compute. reflexivity.
  - vm_compute. reflexivity.
  - left. reflexivity.
Defined.



(** ** The track *)


Lemma point_elements_written (cols : Columns) (row : Row) :
  classify cols row = Written ->
  exists lat lon ele,
    PyFloat.of_string (cell row (lat_col cols)) = Some lat /\
    PyFloat.of_string (cell row (lon_col cols)) = Some lon /\
    PyFloat.of_string (cell row (ele_col cols)) = Some ele /\
    point_elements cols row =
      [text_element "when" (cell row (ts_col cols));
       text_element "gx:coord"
         (PyFloat.str lon ++ " " ++ PyFloat.str lat ++ " " ++ PyFloat.str ele)].
Proof.
  intros Hclass. unfold point_elements. rewrite Hclass.
  unfold classify in Hclass.
  destruct (PyStr.truthy (cell row (ts_col cols))); simpl in Hclass; [|discriminate].
  destruct (PyFloat.of_string (cell row (lat_col cols))) as [lat|]; [|discriminate].
  destruct (PyFloat.of_string (cell row (lon_col cols))) as [lon|]; [|discriminate].
  destruct (PyFloat.of_string (cell row (ele_col cols))) as [ele|]; [|discriminate].
  exists lat, lon, ele. repeat split.
Qed.

Lemma point_elements_not_written (cols : Columns) (row : Row) :
  classify cols row <> Written -> point_elements cols row = [].
Proof.
  intros Hclass. unfold point_elements.
  destruct (classify cols row); [congruence | reflexivity | reflexivity].
Qed.

(** ** Texts that pass through the writing unchanged *)

Lemma string_app_assoc (s1 s2 s3 : string) : (s1 ++ s2) ++ s3 = s1 ++ s2 ++ s3.
Proof. induction s1 as [|c s1 IH]; cbn; [reflexivity | now rewrite IH]. Qed.

Lemma valid_text_app (s1 s2 : string) :
  PyXml.valid_text (s1 ++ s2) = PyXml.valid_text s1 && PyXml.valid_text s2.
Proof.
  induction s1 as [|c s1 IH]; cbn [String.append PyXml.valid_text]; [reflexivity|].
  now rewrite IH, andb_assoc.
Qed.

Lemma plain_app (s1 s2 : string) : plain (s1 ++ s2) = plain s1 && plain s2.
Proof.
  induction s1 as [|c s1 IH]; cbn [String.append plain]; [reflexivity|].
  now rewrite IH, andb_assoc.
Qed.

Lemma escape_app (s1 s2 : string) :
  PyXml.escape (s1 ++ s2) = PyXml.escape s1 ++ PyXml.escape s2.
Proof.
  induction s1 as [|c s1 IH]; cbn [String.append PyXml.escape]; [reflexivity|].
  now rewrite IH, string_app_assoc.
Qed.

Lemma plain_char_facts (c : ascii) :
  plain_char c = true ->
  PyXml.valid_char c = true /\ Ascii.eqb c PyXml.cr = false /\
  PyXml.escape_char c = String c EmptyString.
Proof.
  unfold plain_char, PyXml.escape_char. rewrite !andb_true_iff, !negb_true_iff.
  intros [[[[[Hv Hcr] Ha] Hl] Hq] Hg]. now rewrite Ha, Hl, Hq, Hg.
Qed.

Lemma plain_valid (s : string) : plain s = true -> PyXml.valid_text s = true.
Proof.
  induction s as [|c s IH]; cbn [plain PyXml.valid_text]; [reflexivity|].
  rewrite !andb_true_iff. intros [Hc Hs]. split; [now apply plain_char_facts | now apply IH].
Qed.

Lemma plain_normalize (s : string) : plain s = true -> PyXml.normalize_newlines s = s.
Proof.
  induction s as [|c s IH]; cbn [plain PyXml.normalize_newlines]; [reflexivity|].
  rewrite andb_true_iff. intros [Hc Hs].
  destruct (plain_char_facts c Hc) as (_ & -> & _). now rewrite IH.
Qed.

Lemma plain_escape (s : string) : plain s = true -> PyXml.escape s = s.
Proof.
  induction s as [|c s IH]; cbn [plain PyXml.escape]; [reflexivity|].
  rewrite andb_true_iff. intros [Hc Hs].
  destruct (plain_char_facts c Hc) as (_ & _ & ->). now rewrite IH.
Qed.

(** A text read back after a plain text: the plain part is kept. *)
Lemma normalize_after_plain (p s : string) :
  plain p = true -> PyXml.normalize_newlines (p ++ s) = p ++ PyXml.normalize_newlines s.
Proof.
  induction p as [|c p IH]; cbn [plain String.append PyXml.normalize_newlines]; [reflexivity|].
  rewrite andb_true_iff. intros [Hc Hp].
  destruct (plain_char_facts c Hc) as (_ & -> & _). now rewrite IH.
Qed.

Lemma plain_string_of_uint (u : Decimal.uint) : plain (NilEmpty.string_of_uint u) = true.
Proof. induction u; cbn [NilEmpty.string_of_uint plain]; try rewrite IHu; reflexivity. Qed.

Lemma plain_of_Z (z : Z) : plain (PyFloat.of_Z z) = true.
Proof. apply plain_string_of_uint. Qed.

Lemma plain_zeros (n : nat) : plain (PyFloat.zeros n) = true.
Proof. induction n as [|n IH]; cbn [PyFloat.zeros plain]; [|rewrite IH]; reflexivity. Qed.

Lemma plain_substring (n m : nat) (s : string) :
  plain s = true -> plain (String.substring n m s) = true.
Proof.
  revert n m. induction s as [|c s IH]; intros n m Hs.
  - destruct n, m; reflexivity.
  - cbn [plain] in Hs. apply andb_true_iff in Hs as [Hc Hs].
    destruct n as [|n]; destruct m as [|m]; cbn [String.substring plain];
      try reflexivity; try (now apply IH).
    now rewrite Hc, IH.
Qed.

Lemma plain_layout (ds : string) (decpt : Z) :
  plain ds = true -> plain (PyFloat.layout ds decpt) = true.
Proof.
  intros Hds. unfold PyFloat.layout.
  destruct ((decpt <=? -4)%Z || (16 <? decpt)%Z).
  - rewrite !plain_app, plain_of_Z.
    destruct (decpt - 1 <? 0)%Z, (Z.abs (decpt - 1) <? 10)%Z;
      (destruct ds as [|d [|d' rest]];
       [reflexivity
       |cbn [plain] in Hds |- *; rewrite Hds; reflexivity
       |cbn [plain] in Hds |- *;
        apply andb_true_iff in Hds as [Hd Hrest]; rewrite Hd, Hrest; reflexivity]).
  - destruct (decpt <=? 0)%Z.
    + now rewrite !plain_app, plain_zeros, Hds.
    + destruct (Z.of_nat (String.length ds) <=? decpt)%Z.
      * now rewrite !plain_app, plain_zeros, Hds.
      * now rewrite !plain_app, !plain_substring.
Qed.

(** The text of a float has only plain characters. *)
Lemma plain_float_str (x : PyFloat.float) : plain (PyFloat.str x) = true.
Proof.
  destruct x as [s|s| |s m e]; try (destruct s; reflexivity); [reflexivity|].
  unfold PyFloat.str.
  destruct (PyFloat.ratio m e) as [num den].
  destruct (PyFloat.shortest _ _ _ _ _ _) as [c0 t0].
  destruct (PyFloat.trim_zeros _ _ _) as [c t].
  rewrite plain_app, plain_layout by apply plain_of_Z.
  destruct s; reflexivity.
Qed.

Lemma plain_coord_text (lon lat ele : PyFloat.float) : plain (coord_text lon lat ele) = true.
Proof. unfold coord_text. now rewrite !plain_app, !plain_float_str. Qed.

(** ** Reading the document back *)

Lemma reparse_elem (tag : string) (attrib : list (string * string)) (text : option string)
      (children : list Element) :
  PyXml.reparse (Elem tag attrib text children) =
  match PyXml.read_text text with
  | Raise err => Raise err
  | Ok text' =>
      match reparse_all children with
      | Raise err => Raise err
      | Ok children' => Ok (Elem tag attrib text' children')
      end
  end.
Proof.
  cbn [PyXml.reparse]. destruct (PyXml.read_text text) as [text'|err]; [|reflexivity].
  assert (Heach : forall l,
    (fix each (l : list Element) : result (list Element) :=
       match l with
       | [] => Ok []
       | x :: l' =>
           match PyXml.reparse x with
           | Raise err => Raise err
           | Ok x' => match each l' with
                      | Raise err => Raise err
                      | Ok r => Ok (x' :: r)
                      end
           end
       end) l = reparse_all l).
  { induction l as [|x l IH]; cbn [reparse_all]; [reflexivity|]. now rewrite IH. }
  now rewrite Heach.
Qed.

Lemma reparse_all_app (l1 l2 : list Element) :
  reparse_all (l1 ++ l2) =
  match reparse_all l1 with
  | Raise err => Raise err
  | Ok r1 =>
      match reparse_all l2 with
      | Raise err => Raise err
      | Ok r2 => Ok (r1 ++ r2)%list
      end
  end.
Proof.
  induction l1 as [|x l1 IH]; cbn [app reparse_all].
  - destruct (reparse_all l2); reflexivity.
  - destruct (PyXml.reparse x) as [x'|err]; [|reflexivity]. rewrite IH.
    destruct (reparse_all l1) as [r1|err]; [|reflexivity].
    destruct (reparse_all l2); reflexivity.
Qed.

(** An element with a text and nothing else, read back. *)
Lemma reparse_text_element (tag : string) (c : ascii) (s : string) :
  PyXml.reparse (text_element tag (String c s)) =
  if PyXml.valid_text (String c s)
  then Ok (read_back (text_element tag (String c s)))
  else Raise ExpatError.
Proof.
  unfold text_element. rewrite reparse_elem. cbn [PyXml.read_text reparse_all read_back option_map].
  destruct (PyXml.valid_text (String c s)); reflexivity.
Qed.

Lemma cell_written_nonempty (cols : Columns) (row : Row) :
  classify cols row = Written -> cell row (ts_col cols) <> EmptyString.
Proof.
  unfold classify. intros H Hts. rewrite Hts in H. discriminate.
Qed.

(** The two elements of a row, read back. *)
Lemma reparse_point_elements (cols : Columns) (row : Row) :
  reparse_all (point_elements cols row) =
  if row_writable cols row then Ok (map read_back (point_elements cols row))
  else Raise ExpatError.
Proof.
  unfold row_writable. destruct (classify cols row) eqn:Hc; cbn [class_eqb negb orb];
    [|rewrite point_elements_not_written by congruence; reflexivity ..].
  destruct (point_elements_written _ _ Hc) as (lat & lon & ele & _ & _ & _ & ->).
  pose proof (cell_written_nonempty _ _ Hc) as Hne.
  destruct (cell row (ts_col cols)) as [|c s] eqn:Hts; [congruence|].
  cbn [reparse_all map]. rewrite reparse_text_element.
  destruct (PyXml.valid_text (String c s)); [|reflexivity].
  fold (coord_text lon lat ele).
  pose proof (plain_coord_text lon lat ele) as Hp.
  destruct (coord_text lon lat ele) as [|d t] eqn:Hcoord.
  - unfold coord_text in Hcoord. destruct (PyFloat.str lon); discriminate.
  - rewrite reparse_text_element, (plain_valid _ Hp). reflexivity.
Qed.

Lemma reparse_track (cols : Columns) (rows : list Row) :
  reparse_all (flat_map (point_elements cols) rows) =
  if forallb (row_writable cols) rows
  then Ok (map read_back (flat_map (point_elements cols) rows))
  else Raise ExpatError.
Proof.
  induction rows as [|row rows IH]; [reflexivity|].
  cbn [flat_map forallb]. rewrite reparse_all_app, reparse_point_elements, IH.
  destruct (row_writable cols row); [|reflexivity].
  destruct (forallb (row_writable cols) rows); [|reflexivity].
  cbn [andb]. now rewrite map_app.
Qed.

(** The document of a run, read back: all of it, or [ExpatError] when
    the base name or a written timestamp has a character that XML does
    not allow. *)
Lemma reparse_document (b label : string) (cols : Columns) (rows : list Row) :
  plain label = true -> label <> EmptyString ->
  PyXml.reparse (kml_document b label (flat_map (point_elements cols) rows)) =
  if serializable b cols rows
  then Ok (kml_document (PyXml.normalize_newlines b) label
                        (map read_back (flat_map (point_elements cols) rows)))
  else Raise ExpatError.
Proof.
  intros Hlabel Hne. unfold kml_document, serializable, text_element.
  rewrite !reparse_elem. cbn [reparse_all PyXml.read_text].
  rewrite !reparse_elem. cbn [reparse_all PyXml.read_text].
  rewrite !reparse_elem. cbn [reparse_all PyXml.read_text].
  rewrite !reparse_elem. cbn [reparse_all PyXml.read_text].
  rewrite reparse_track.
  change (PyXml.valid_text ("Drone Flight Track - " ++ b)) with (PyXml.valid_text b).
  change (PyXml.normalize_newlines ("Drone Flight Track - " ++ b))
    with ("Drone Flight Track - " ++ PyXml.normalize_newlines b).
  rewrite valid_text_app, (plain_valid _ Hlabel), (normalize_after_plain _ _ Hlabel).
  cbn [andb String.append].
  destruct (PyXml.valid_text b); [|reflexivity]. cbn [andb].
  destruct (forallb (row_writable cols) rows); [|reflexivity].
  destruct label as [|c l]; [congruence|]. reflexivity.
Qed.

(** ** The text of the output file *)

Lemma string_app_nil_r (s : string) : s ++ EmptyString = s.
Proof. induction s as [|c s IH]; cbn; [reflexivity | now rewrite IH]. Qed.

Lemma writexml_elem (indent tag : string) (attrib : list (string * string))
      (text : option string) (children : list Element) :
  PyXml.writexml indent (Elem tag attrib text children) =
  match or_empty text, children with
  | EmptyString, [] =>
      (indent ++ "<" ++ tag ++ String.concat EmptyString (map PyXml.attribute attrib))
        ++ "/>" ++ PyXml.nl
  | String c s, [] =>
      (indent ++ "<" ++ tag ++ String.concat EmptyString (map PyXml.attribute attrib))
        ++ ">" ++ PyXml.escape (String c s) ++ "</" ++ tag ++ ">" ++ PyXml.nl
  | s, _ :: _ =>
      (indent ++ "<" ++ tag ++ String.concat EmptyString (map PyXml.attribute attrib))
        ++ ">" ++ PyXml.nl
        ++ (if PyStr.truthy s then PyXml.escape (indent ++ "  " ++ s ++ PyXml.nl)
            else EmptyString)
        ++ write_all (indent ++ "  ") children
        ++ indent ++ "</" ++ tag ++ ">" ++ PyXml.nl
  end.
Proof.
  assert (Heach : forall ind l,
    (fix each (l : list Element) : string :=
       match l with
       | [] => EmptyString
       | x :: l' => PyXml.writexml ind x ++ each l'
       end) l = write_all ind l).
  { intros ind. induction l as [|x l IH]; cbn [write_all]; [reflexivity|]. now rewrite IH. }
  cbn [PyXml.writexml]. destruct (or_empty text), children; try reflexivity;
    now rewrite Heach.
Qed.

Lemma write_all_app (indent : string) (l1 l2 : list Element) :
  write_all indent (l1 ++ l2) = write_all indent l1 ++ write_all indent l2.
Proof.
  induction l1 as [|x l1 IH]; cbn [app write_all String.append]; [reflexivity|].
  now rewrite IH, string_app_assoc.
Qed.

Lemma normalize_nonempty (c : ascii) (s : string) :
  exists d t, PyXml.normalize_newlines (String c s) = String d t.
Proof.
  cbn [PyXml.normalize_newlines]. destruct (Ascii.eqb c PyXml.cr); eauto.
Qed.

Lemma normalize_not_empty (s : string) :
  s <> EmptyString -> PyXml.normalize_newlines s <> EmptyString.
Proof.
  destruct s as [|c s]; [congruence|]. intros _.
  destruct (normalize_nonempty c s) as (d & t & ->). discriminate.
Qed.

(** The line written for an element with a text and nothing else. *)
Lemma write_text_element (indent tag text : string) :
  text <> EmptyString ->
  PyXml.writexml indent (text_element tag text) =
  indent ++ "<" ++ tag ++ ">" ++ PyXml.escape text ++ "</" ++ tag ++ ">" ++ PyXml.nl.
Proof.
  intros Hne. unfold text_element. rewrite writexml_elem. cbn [or_empty map String.concat].
  destruct text as [|c s]; [congruence|].
  rewrite !string_app_assoc. reflexivity.
Qed.

Lemma coord_text_not_empty (lon lat ele : PyFloat.float) :
  coord_text lon lat ele <> EmptyString.
Proof. unfold coord_text. destruct (PyFloat.str lon); discriminate. Qed.

(** The lines written for the elements of one row. *)
Lemma write_point_elements (cols : Columns) (row : Row) :
  write_all "        " (map read_back (point_elements cols row)) = row_text cols row.
Proof.
  unfold row_text. destruct (classify cols row) eqn:Hc;
    [|rewrite point_elements_not_written by congruence; reflexivity ..].
  destruct (point_elements_written _ _ Hc) as (lat & lon & ele & -> & -> & -> & ->).
  pose proof (cell_written_nonempty _ _ Hc) as Hne.
  fold (coord_text lon lat ele).
  cbn [map read_back text_element option_map write_all].
  fold (text_element "when" (PyXml.normalize_newlines (cell row (ts_col cols)))).
  fold (text_element "gx:coord" (PyXml.normalize_newlines (coord_text lon lat ele))).
  rewrite (plain_normalize _ (plain_coord_text lon lat ele)).
  rewrite !write_text_element
    by (try apply normalize_not_empty; try apply coord_text_not_empty; assumption).
  rewrite (plain_escape _ (plain_coord_text lon lat ele)).
  rewrite !string_app_assoc, string_app_nil_r. unfold coord_text.
  rewrite !string_app_assoc. reflexivity.
Qed.

Lemma write_track (cols : Columns) (rows : list Row) :
  write_all "        " (map read_back (flat_map (point_elements cols) rows))
  = track_text cols rows.
Proof.
  induction rows as [|row rows IH]; [reflexivity|].
  cbn [flat_map track_text]. now rewrite map_app, write_all_app, write_point_elements, IH.
Qed.

(** What is written for an element with children and no text. *)
Lemma write_parent (indent tag : string) (attrib : list (string * string))
      (x : Element) (l : list Element) :
  PyXml.writexml indent (Elem tag attrib None (x :: l)) =
  indent ++ "<" ++ tag ++ String.concat EmptyString (map PyXml.attribute attrib)
         ++ ">" ++ PyXml.nl
         ++ write_all (indent ++ "  ") (x :: l)
         ++ indent ++ "</" ++ tag ++ ">" ++ PyXml.nl.
Proof.
  rewrite writexml_elem. cbn [or_empty PyStr.truthy].
  rewrite !string_app_assoc. reflexivity.
Qed.

Lemma writexml_starts (c : ascii) (indent : string) (e : Element) :
  exists t, PyXml.writexml (String c indent) e = String c t.
Proof.
  destruct e as [tag attrib text children]. rewrite writexml_elem.
  destruct (or_empty text), children; cbn [String.append]; eauto.
Qed.

(** The text of the file for the document read back. *)
Lemma document_text (b label : string) (cols : Columns) (rows : list Row) :
  plain label = true -> label <> EmptyString ->
  PyXml.toprettyxml
    (kml_document (PyXml.normalize_newlines b) label
                  (map read_back (flat_map (point_elements cols) rows)))
  = kml_text b label (track_text cols rows).
Proof.
  intros Hlabel Hne. rewrite <- write_track.
  generalize (map read_back (flat_map (point_elements cols) rows)). intros pts.
  unfold PyXml.toprettyxml, kml_document, kml_text.
  rewrite write_parent. cbn [write_all String.append].
  rewrite write_parent. cbn [write_all String.append].
  rewrite (write_text_element "    " "name") by discriminate.
  rewrite write_parent. cbn [write_all String.append].
  rewrite (write_text_element "      " "name")
    by (destruct label; [congruence | discriminate]).
  rewrite (escape_app label), (plain_escape _ Hlabel).
  change (PyXml.escape ("Drone Flight Track - " ++ PyXml.normalize_newlines b))
    with ("Drone Flight Track - " ++ PyXml.escape (PyXml.normalize_newlines b)).
  destruct pts as [|x l].
  - rewrite writexml_elem. unfold PyXml.quote, PyXml.nl.
    repeat first [rewrite !string_app_assoc | progress cbn]. reflexivity.
  - rewrite write_parent.
    destruct (writexml_starts " " "       " x) as [t Ht].
    cbn [write_all String.append]. rewrite Ht. unfold PyXml.quote, PyXml.nl.
    repeat first [rewrite !string_app_assoc | progress cbn]. reflexivity.
Qed.

(** ** The two front ends, written or not *)

Lemma plain_uas : plain "UAS - " = true /\ "UAS - " <> EmptyString.
Proof. split; [reflexivity | discriminate]. Qed.

Lemma plain_flight_path : plain "Flight Path - " = true /\ "Flight Path - " <> EmptyString.
Proof. split; [reflexivity | discriminate]. Qed.

(** [csv_to_kml] writes its file when the document can be written. *)
Lemma cli_finished (csv_file kml_file : string) (fieldnames : option (list string))
      (rows : list Row) :
  all_detected fieldnames = true ->
  serializable (base_name csv_file) (columns_of fieldnames) rows = true ->
  exists st,
    run_loop (columns_of fieldnames) loop_start rows = Ok st /\
    Cli.csv_to_kml csv_file kml_file fieldnames rows =
    Cli.mkRun
      (List.app
         (Cli.print_detected_columns fieldnames
            (detect fieldnames timestamp) (detect fieldnames latitude)
            (detect fieldnames longitude) (detect fieldnames elevation))
         (Cli.summary kml_file st))
      (Cli.Finished kml_file
         (kml_document (PyXml.normalize_newlines (base_name csv_file)) "UAS - "
            (map read_back (flat_map (point_elements (columns_of fieldnames)) rows)))).
Proof.
  intros Hall Hser.
  destruct (cli_outcome csv_file kml_file fieldnames rows Hall) as (st & Hrun & Ht & ->).
  exists st. split; [assumption|].
  rewrite Ht, (reparse_document _ _ _ _ (proj1 plain_uas) (proj2 plain_uas)), Hser.
  reflexivity.
Qed.

(** [csv_to_kml] ends with [ExpatError], after the detected columns and
    nothing else, when the document cannot be written. *)
Lemma cli_failed (csv_file kml_file : string) (fieldnames : option (list string))
      (rows : list Row) :
  all_detected fieldnames = true ->
  serializable (base_name csv_file) (columns_of fieldnames) rows = false ->
  Cli.csv_to_kml csv_file kml_file fieldnames rows =
  Cli.mkRun
    (Cli.print_detected_columns fieldnames
       (detect fieldnames timestamp) (detect fieldnames latitude)
       (detect fieldnames longitude) (detect fieldnames elevation))
    (Cli.Uncaught ExpatError).
Proof.
  intros Hall Hser.
  destruct (cli_outcome csv_file kml_file fieldnames rows Hall) as (st & Hrun & Ht & ->).
  rewrite Ht, (reparse_document _ _ _ _ (proj1 plain_uas) (proj2 plain_uas)), Hser.
  reflexivity.
Qed.

Lemma iphone_finished (csv_file output_dir : string) (fieldnames : option (list string))
      (rows : list Row) :
  all_detected fieldnames = true ->
  serializable (base_name csv_file) (columns_of fieldnames) rows = true ->
  exists st,
    run_loop (columns_of fieldnames) loop_start rows = Ok st /\
    Iphone.process_csv csv_file output_dir fieldnames rows =
    Ok (Iphone.mkProcessed
          (PyStr.join Iphone.newline
             (List.app
                (Iphone.log_head csv_file
                   (detect fieldnames timestamp) (detect fieldnames latitude)
                   (detect fieldnames longitude) (detect fieldnames elevation))
                (Iphone.log_tail (output_path output_dir csv_file) st)))
          (Some (output_path output_dir csv_file,
                 kml_document (PyXml.normalize_newlines (base_name csv_file)) "Flight Path - "
                   (map read_back
                      (flat_map (point_elements (columns_of fieldnames)) rows))))).
Proof.
  intros Hall Hser.
  destruct (iphone_outcome csv_file output_dir fieldnames rows Hall) as (st & Hrun & Ht & ->).
  exists st. split; [assumption|].
  rewrite Ht, (reparse_document _ _ _ _ (proj1 plain_flight_path) (proj2 plain_flight_path)),
          Hser.
  reflexivity.
Qed.

Lemma iphone_failed (csv_file output_dir : string) (fieldnames : option (list string))
      (rows : list Row) :
  all_detected fieldnames = true ->
  serializable (base_name csv_file) (columns_of fieldnames) rows = false ->
  Iphone.process_csv csv_file output_dir fieldnames rows = Raise ExpatError.
Proof.
  intros Hall Hser.
  destruct (iphone_outcome csv_file output_dir fieldnames rows Hall) as (st & Hrun & Ht & ->).
  rewrite Ht, (reparse_document _ _ _ _ (proj1 plain_flight_path) (proj2 plain_flight_path)),
          Hser.
  reflexivity.
Qed.








(** ** The summary *)

(** C9, on [process_csv].  For a file with the four columns and one row
    without a timestamp, no row is written, the file is saved with an
    empty track, and the log returned has the five summary entries and
    no warning. *)
Theorem iphone_zero_rows_no_warning :
  all_detected (Some ["timestamp"; "latitude"; "longitude"; "elevation"]) = true /\
  (exists st,
      run_loop (columns_of (Some ["timestamp"; "latitude"; "longitude"; "elevation"]))
               loop_start
               [[("timestamp", Some EmptyString); ("latitude", Some "1.0");
                 ("longitude", Some "2.0"); ("elevation", Some "3.0")]] = Ok st /\
      rows_written st = 0) /\
  Iphone.process_csv "flight.csv" "KML_Output"
    (Some ["timestamp"; "latitude"; "longitude"; "elevation"])
    [[("timestamp", Some EmptyString); ("latitude", Some "1.0");
      ("longitude", Some "2.0"); ("elevation", Some "3.0")]]
  = Ok (Iphone.mkProcessed
          (PyStr.join Iphone.newline
             ["Processing: flight.csv";
              "Detected columns:";
              "  timestamp -> 'timestamp'";
              "  latitude  -> 'latitude'";
              "  longitude -> 'longitude'";
              "  elevation -> 'elevation'";
              "Saved KML: KML_Output/flight.kml";
              "Rows processed: 1";
              "  Rows written: 0";
              "  Rows skipped (invalid/missing data): 1";
              "  Rows skipped due to invalid coordinates (0.0): 0"])
          (Some ("KML_Output/flight.kml",
                 kml_document "flight" "Flight Path - " []))) /\
  In Cli.warning
     (Cli.stdout
        (Cli.csv_to_kml "flight.csv" "flight.kml"
           (Some ["timestamp"; "latitude"; "longitude"; "elevation"])
           [[("timestamp", Some EmptyString); ("latitude", Some "1.0");
             ("longitude", Some "2.0"); ("elevation", Some "3.0")]])).
Proof.
  split; [reflexivity|]. split; [eexists; split; reflexivity|].
  split; [vm_compute; reflexivity|]. vm_compute. do 12 right. now left.
Qed.

(** ** The scenarios of the specification *)

Example scenario_all_four_resolve :
  map (detect (Some ["Time (UTC)"; "Lat"; "Lon"; "Alt_m"]))
      [timestamp; latitude; longitude; elevation]
  = [Some "Time (UTC)"; Some "Lat"; Some "Lon"; Some "Alt_m"].
Proof. reflexivity. Qed.

Example scenario_no_elevation_aborts :
  detect (Some ["timestamp"; "latitude"; "longitude"]) elevation = None /\
  Cli.ending (Cli.csv_to_kml "flight.csv" "flight.kml"
                (Some ["timestamp"; "latitude"; "longitude"]) []) = Cli.Exit 1.
Proof. split; reflexivity. Qed.

Example scenario_zero_latitude :
  classify sample_columns (sample_row "2025-01-01T00:00:00Z" "0.0" "12.3" "100")
  = SkippedZeroCoord.
Proof. vm_compute. reflexivity. Qed.

Example scenario_empty_timestamp :
  classify sample_columns (sample_row EmptyString "1.0" "2.0" "3.0") = SkippedMissing.
Proof. reflexivity. Qed.

Example scenario_not_a_number :
  classify sample_columns (sample_row "t1" "abc" "2.0" "3.0") = SkippedMissing.
Proof. vm_compute. reflexivity. Qed.

Example scenario_same_key_twice :
  detect (Some ["Lat"; "lat"]) latitude = Some "lat" /\
  detect (Some ["lat"; "Lat"]) latitude = Some "Lat".
Proof. split; reflexivity. Qed.

Example scenario_written_row :
  run_loop sample_columns loop_start [sample_row " t2 " "45.5" "-122.25" "100"]
  = Ok (mkLoop [text_element "when" "t2"; text_element "gx:coord" "-122.25 45.5 100.0"]
               1 0 0 1).
Proof. vm_compute. reflexivity. Qed.

(** * Further properties of the code *)

(** ** The final state of the loop, counter by counter *)

Lemma class_eqb_eq (a b : RowClass) : class_eqb a b = true <-> a = b.
Proof. destruct a, b; simpl; split; congruence. Qed.

Lemma count_class_cons (cols : Columns) (c : RowClass) (row : Row) (rows : list Row) :
  count_class cols c (row :: rows) =
  (if class_eqb (classify cols row) c then 1 else 0) + count_class cols c rows.
Proof.
  unfold count_class. cbn [filter].
  destruct (class_eqb (classify cols row) c); reflexivity.
Qed.

Lemma count_class_app (cols : Columns) (c : RowClass) (rows1 rows2 : list Row) :
  count_class cols c (rows1 ++ rows2) = count_class cols c rows1 + count_class cols c rows2.
Proof. unfold count_class. now rewrite filter_app, length_app. Qed.

Lemma count_class_perm (cols : Columns) (c : RowClass) (rows rows' : list Row) :
  Permutation rows rows' -> count_class cols c rows = count_class cols c rows'.
Proof.
  induction 1 as [|row l l' _ IH|a b l|l l' l'' _ IH1 _ IH2].
  - reflexivity.
  - rewrite !count_class_cons. now rewrite IH.
  - rewrite !count_class_cons. lia.
  - congruence.
Qed.

(** The loop from any state: each counter grows by the number of rows
    of its class, and the track by the elements of the written rows. *)
Lemma run_loop_final (cols : Columns) (rows : list Row) (st : Loop) :
  run_loop cols st rows =
  Ok (mkLoop (track st ++ flat_map (point_elements cols) rows)%list
             (rows_written st + count_class cols Written rows)
             (rows_skipped st + count_class cols SkippedMissing rows)
             (rows_invalid_coords st + count_class cols SkippedZeroCoord rows)
             (total_rows st + List.length rows)).
Proof.
  revert st. induction rows as [|row rows IH]; intros st.
  - destruct st. cbn. rewrite app_nil_r, !Nat.add_0_r. reflexivity.
  - rewrite run_loop_cons, IH, after_row_track, !count_class_cons.
    cbn [flat_map List.length]. rewrite <- app_assoc.
    unfold after_row. destruct (classify cols row); cbn; f_equal; f_equal; lia.
Qed.

Lemma point_elements_length (cols : Columns) (row : Row) :
  List.length (point_elements cols row) =
  if class_eqb (classify cols row) Written then 2 else 0.
Proof.
  destruct (classify cols row) eqn:Hc.
  - destruct (point_elements_written _ _ Hc) as (lat & lon & ele & _ & _ & _ & ->).
    reflexivity.
  - rewrite point_elements_not_written by congruence. reflexivity.
  - rewrite point_elements_not_written by congruence. reflexivity.
Qed.

Lemma track_length (cols : Columns) (rows : list Row) :
  List.length (flat_map (point_elements cols) rows) = 2 * count_class cols Written rows.
Proof.
  induction rows as [|row rows IH]; [reflexivity|].
  cbn [flat_map]. rewrite length_app, IH, point_elements_length, count_class_cons.
  destruct (class_eqb (classify cols row) Written); lia.
Qed.

Lemma alternating_app (l1 l2 : list Element) :
  alternating l1 -> alternating l2 -> alternating (l1 ++ l2).
Proof.
  revert l1. fix IH 1. intros [|w [|c rest]]; cbn; intros H1 H2.
  - assumption.
  - destruct H1.
  - destruct H1 as (Hw & Hc & Hrest). repeat split; try assumption. now apply IH.
Qed.

Lemma point_elements_alternating (cols : Columns) (row : Row) :
  alternating (point_elements cols row).
Proof.
  destruct (classify cols row) eqn:Hc.
  - destruct (point_elements_written _ _ Hc) as (lat & lon & ele & _ & _ & _ & ->).
    cbn. auto.
  - rewrite point_elements_not_written by congruence. exact I.
  - rewrite point_elements_not_written by congruence. exact I.
Qed.

Lemma track_alternating (cols : Columns) (rows : list Row) :
  alternating (flat_map (point_elements cols) rows).
Proof.
  induction rows as [|row rows IH]; [exact I|].
  cbn [flat_map]. apply alternating_app; [apply point_elements_alternating | assumption].
Qed.

(** After the loop each counter is the number of rows of its class:
    [rows_written] counts the rows with a timestamp and three numbers of
    which neither latitude nor longitude is zero, [rows_invalid_coords]
    those with such a zero, [rows_skipped] all the others. *)
Theorem counters_count_their_class :
  forall (cols : Columns) (rows : list Row),
  exists st,
    run_loop cols loop_start rows = Ok st /\
    rows_written st = count_class cols Written rows /\
    rows_skipped st = count_class cols SkippedMissing rows /\
    rows_invalid_coords st = count_class cols SkippedZeroCoord rows.
Proof.
  intros cols rows. rewrite run_loop_final. eexists. split; [reflexivity|].
  cbn. auto.
Qed.

(** The track holds two elements for each written row, a [when] and a
    [gx:coord] in turn: its length is twice [rows_written]. *)
Theorem track_two_elements_per_written_row :
  forall (cols : Columns) (rows : list Row),
  exists st,
    run_loop cols loop_start rows = Ok st /\
    List.length (track st) = 2 * rows_written st /\
    alternating (track st).
Proof.
  intros cols rows. rewrite run_loop_final. eexists. split; [reflexivity|].
  cbn. split; [apply track_length | apply track_alternating].
Qed.

(** Converting the rows of two files one after the other gives the
    points of the first followed by the points of the second, and
    counters that are the sums of the two runs. *)
Theorem loop_over_concatenation :
  forall (cols : Columns) (rows1 rows2 : list Row),
  exists st1 st2 st,
    run_loop cols loop_start rows1 = Ok st1 /\
    run_loop cols loop_start rows2 = Ok st2 /\
    run_loop cols loop_start (rows1 ++ rows2) = Ok st /\
    run_loop cols st1 rows2 = Ok st /\
    track st = (track st1 ++ track st2)%list /\
    rows_written st = rows_written st1 + rows_written st2 /\
    rows_skipped st = rows_skipped st1 + rows_skipped st2 /\
    rows_invalid_coords st = rows_invalid_coords st1 + rows_invalid_coords st2 /\
    total_rows st = total_rows st1 + total_rows st2.
Proof.
  intros cols rows1 rows2. rewrite !run_loop_final.
  do 3 eexists. split; [reflexivity|]. split; [reflexivity|]. split; [reflexivity|].
  rewrite run_loop_final. cbn.
  rewrite !count_class_app, flat_map_app, length_app.
  repeat (split; [reflexivity|]). reflexivity.
Qed.

(** The order of the rows matters to the track only: a rearrangement of
    the rows leaves the four counters as they were. *)
Theorem counters_ignore_row_order :
  forall (cols : Columns) (rows rows' : list Row),
    Permutation rows rows' ->
    exists st st',
      run_loop cols loop_start rows = Ok st /\
      run_loop cols loop_start rows' = Ok st' /\
      rows_written st = rows_written st' /\
      rows_skipped st = rows_skipped st' /\
      rows_invalid_coords st = rows_invalid_coords st' /\
      total_rows st = total_rows st' /\
      Permutation (map element_text (track st)) (map element_text (track st')).
Proof.
  intros cols rows rows' Hperm. rewrite !run_loop_final.
  do 2 eexists. split; [reflexivity|]. split; [reflexivity|]. cbn.
  rewrite (count_class_perm cols Written _ _ Hperm),
          (count_class_perm cols SkippedMissing _ _ Hperm),
          (count_class_perm cols SkippedZeroCoord _ _ Hperm),
          (Permutation_length Hperm).
  repeat split. apply Permutation_map.
  clear -Hperm. induction Hperm as [|row l l' _ IH|a b l|l l' l'' _ IH1 _ IH2].
  - constructor.
  - cbn [flat_map]. now apply Permutation_app_head.
  - cbn [flat_map]. rewrite !app_assoc. apply Permutation_app_tail, Permutation_app_comm.
  - eapply Permutation_trans; eassumption.
Qed.

Lemma counters_ignore_row_order_witness :
  exists st st',
    run_loop sample_columns loop_start
             [sample_row "t1" "1.0" "2.0" "3.0"; sample_row EmptyString "1" "2" "3"] = Ok st /\
    run_loop sample_columns loop_start
             [sample_row EmptyString "1" "2" "3"; sample_row "t1" "1.0" "2.0" "3.0"] = Ok st' /\
    rows_written st = rows_written st' /\
    rows_skipped st = rows_skipped st' /\
    rows_invalid_coords st = rows_invalid_coords st' /\
    total_rows st = total_rows st' /\
    Permutation (map element_text (track st)) (map element_text (track st')).
Proof.
  apply (counters_ignore_row_order sample_columns
           [sample_row "t1" "1.0" "2.0" "3.0"; sample_row EmptyString "1" "2" "3"]
           [sample_row EmptyString "1" "2" "3"; sample_row "t1" "1.0" "2.0" "3.0"]).
  apply perm_swap.
Defined.

(** ** Which rows are written, which are skipped *)

Lemma eqb_zero_is_zero (x : PyFloat.float) : PyFloat.eqb x PyFloat.zero = is_zero x.
Proof. destruct x as [s|s| |s m e]; try destruct s; reflexivity. Qed.

Lemma classify_written_iff (cols : Columns) (row : Row) :
  classify cols row = Written <->
  cell row (ts_col cols) <> EmptyString /\
  exists lat lon ele,
    PyFloat.of_string (cell row (lat_col cols)) = Some lat /\
    PyFloat.of_string (cell row (lon_col cols)) = Some lon /\
    PyFloat.of_string (cell row (ele_col cols)) = Some ele /\
    is_zero lat = false /\ is_zero lon = false.
Proof.
  unfold classify. rewrite <- truthy_true_iff.
  destruct (PyStr.truthy (cell row (ts_col cols))); cbn [negb];
    [|split; [discriminate | intros [H _]; discriminate]].
  destruct (PyFloat.of_string (cell row (lat_col cols))) as [lat|];
    [|split; [discriminate | intros [_ (? & ? & ? & H & _)]; discriminate]].
  destruct (PyFloat.of_string (cell row (lon_col cols))) as [lon|];
    [|split; [discriminate | intros [_ (? & ? & ? & _ & H & _)]; discriminate]].
  destruct (PyFloat.of_string (cell row (ele_col cols))) as [ele|];
    [|split; [discriminate | intros [_ (? & ? & ? & _ & _ & H & _)]; discriminate]].
  rewrite !eqb_zero_is_zero.
  destruct (is_zero lat) eqn:Zlat, (is_zero lon) eqn:Zlon; cbn [orb]; split;
    try discriminate;
    try (intros [_ (a & b & c & [= <-] & [= <-] & _ & Ha & Hb)]; congruence).
  intros _. split; [reflexivity|]. exists lat, lon, ele. auto.
Qed.

Lemma classify_zero_iff (cols : Columns) (row : Row) :
  classify cols row = SkippedZeroCoord <->
  cell row (ts_col cols) <> EmptyString /\
  exists lat lon ele,
    PyFloat.of_string (cell row (lat_col cols)) = Some lat /\
    PyFloat.of_string (cell row (lon_col cols)) = Some lon /\
    PyFloat.of_string (cell row (ele_col cols)) = Some ele /\
    (is_zero lat = true \/ is_zero lon = true).
Proof.
  unfold classify. rewrite <- truthy_true_iff.
  destruct (PyStr.truthy (cell row (ts_col cols))); cbn [negb];
    [|split; [discriminate | intros [H _]; discriminate]].
  destruct (PyFloat.of_string (cell row (lat_col cols))) as [lat|];
    [|split; [discriminate | intros [_ (? & ? & ? & H & _)]; discriminate]].
  destruct (PyFloat.of_string (cell row (lon_col cols))) as [lon|];
    [|split; [discriminate | intros [_ (? & ? & ? & _ & H & _)]; discriminate]].
  destruct (PyFloat.of_string (cell row (ele_col cols))) as [ele|];
    [|split; [discriminate | intros [_ (? & ? & ? & _ & _ & H & _)]; discriminate]].
  rewrite !eqb_zero_is_zero.
  destruct (is_zero lat) eqn:Zlat, (is_zero lon) eqn:Zlon; cbn [orb]; split;
    try discriminate;
    try (intros _; split; [reflexivity|]; exists lat, lon, ele; auto);
    intros [_ (a & b & c & [= <-] & [= <-] & _ & [Ha|Hb])]; congruence.
Qed.

Lemma counted_classify (cols : Columns) (st : Loop) (row : Row) (c : RowClass) :
  counted c st (after_row cols row (count_row st)) <-> classify cols row = c.
Proof.
  pose proof (after_row_counted cols row st) as Hc. split.
  - intros H. symmetry. eapply counted_unique; eassumption.
  - intros <-. assumption.
Qed.

(** A row is written exactly when it has a timestamp, its three cells
    are numbers for [float], and neither its latitude nor its longitude
    is a zero of either sign (so [-0.0] and a text that underflows to
    zero are not written either). *)
Theorem written_row_iff :
  forall (cols : Columns) (st : Loop) (row : Row),
  exists st',
    loop_body cols st row = Ok st' /\
    (counted Written st st' <->
     cell row (ts_col cols) <> EmptyString /\
     exists lat lon ele,
       PyFloat.of_string (cell row (lat_col cols)) = Some lat /\
       PyFloat.of_string (cell row (lon_col cols)) = Some lon /\
       PyFloat.of_string (cell row (ele_col cols)) = Some ele /\
       is_zero lat = false /\ is_zero lon = false).
Proof.
  intros cols st row. exists (after_row cols row (count_row st)).
  split; [apply loop_body_after_row|].
  rewrite counted_classify. apply classify_written_iff.
Qed.

(** A row is counted in [rows_invalid_coords] exactly when it has a
    timestamp, its three cells are numbers, and its latitude or its
    longitude is a zero of either sign. *)
Theorem zero_coordinate_row_iff :
  forall (cols : Columns) (st : Loop) (row : Row),
  exists st',
    loop_body cols st row = Ok st' /\
    (counted SkippedZeroCoord st st' <->
     cell row (ts_col cols) <> EmptyString /\
     exists lat lon ele,
       PyFloat.of_string (cell row (lat_col cols)) = Some lat /\
       PyFloat.of_string (cell row (lon_col cols)) = Some lon /\
       PyFloat.of_string (cell row (ele_col cols)) = Some ele /\
       (is_zero lat = true \/ is_zero lon = true)).
Proof.
  intros cols st row. exists (after_row cols row (count_row st)).
  split; [apply loop_body_after_row|].
  rewrite counted_classify. apply classify_zero_iff.
Qed.

Lemma float_of_empty : PyFloat.of_string EmptyString = None.
Proof. reflexivity. Qed.

(** A row that lacks one of the four cells (a line shorter than the
    header line), or has it empty or blank, is skipped as missing data
    and leaves the track as it was. *)
Theorem missing_cell_skipped :
  forall (cols : Columns) (st : Loop) (row : Row) (col : string),
    In col [ts_col cols; lat_col cols; lon_col cols; ele_col cols] ->
    row_get row col = None \/
    (exists s, row_get row col = Some s /\ PyStr.strip s = EmptyString) ->
    exists st',
      loop_body cols st row = Ok st' /\
      counted SkippedMissing st st' /\
      track st' = track st.
Proof.
  intros cols st row col Hcol Hcell.
  assert (Hempty : cell row col = EmptyString).
  { unfold cell. destruct Hcell as [-> | (s & -> & Hs)]; [reflexivity | exact Hs]. }
  assert (Hclass : classify cols row = SkippedMissing).
  { apply classify_missing_iff.
    destruct Hcol as [<-|[<-|[<-|[<-|[]]]]]; rewrite Hempty; auto using float_of_empty. }
  exists (after_row cols row (count_row st)).
  split; [apply loop_body_after_row|]. split; [now apply counted_classify|].
  rewrite after_row_track, point_elements_not_written by congruence.
  cbn. now rewrite app_nil_r.
Qed.

Lemma missing_cell_skipped_witness :
  exists st',
    loop_body sample_columns loop_start
              [("timestamp", Some "t1"); ("lat", Some "1.0"); ("lon", None)] = Ok st' /\
    counted SkippedMissing loop_start st' /\
    track st' = track loop_start.
Proof.
  apply (missing_cell_skipped sample_columns loop_start
           [("timestamp", Some "t1"); ("lat", Some "1.0"); ("lon", None)] "ele").
  - simpl. auto.
  - left. reflexivity.
Defined.

(** Only the four detected columns of a row are read: two rows that
    agree on them are handled alike, whatever their other cells. *)
Theorem other_cells_ignored :
  forall (cols : Columns) (st : Loop) (row row' : Row),
    (forall col, In col [ts_col cols; lat_col cols; lon_col cols; ele_col cols] ->
                 row_get row col = row_get row' col) ->
    loop_body cols st row = loop_body cols st row' /\
    float_calls (try_block cols (count_row st) row) =
    float_calls (try_block cols (count_row st) row').
Proof.
  intros cols st row row' Hsame.
  assert (Hcell : forall col,
             In col [ts_col cols; lat_col cols; lon_col cols; ele_col cols] ->
             cell row col = cell row' col).
  { intros col Hcol. unfold cell. now rewrite (Hsame col Hcol). }
  unfold loop_body, try_block.
  rewrite (Hcell (ts_col cols)), (Hcell (lat_col cols)),
          (Hcell (lon_col cols)), (Hcell (ele_col cols)) by (simpl; auto).
  split; reflexivity.
Qed.

Lemma other_cells_ignored_witness :
  loop_body sample_columns loop_start (sample_row "t1" "1.0" "2.0" "3.0") =
  loop_body sample_columns loop_start (("speed", Some "12") :: sample_row "t1" "1.0" "2.0" "3.0")
  /\
  float_calls (try_block sample_columns (count_row loop_start)
                         (sample_row "t1" "1.0" "2.0" "3.0")) =
  float_calls (try_block sample_columns (count_row loop_start)
                         (("speed", Some "12") :: sample_row "t1" "1.0" "2.0" "3.0")).
Proof.
  apply (other_cells_ignored sample_columns loop_start).
  intros col [<-|[<-|[<-|[<-|[]]]]]; reflexivity.
Defined.

(** ** The timestamps of the track *)

Lemma lstrip_not_blank (s : string) : starts_blank (PyStr.lstrip_by PyStr.isspace s) = false.
Proof.
  induction s as [|c s IH]; [reflexivity|]. cbn [PyStr.lstrip_by].
  destruct (PyStr.isspace c) eqn:Hc; [assumption|]. cbn. exact Hc.
Qed.

Lemma rstrip_not_blank (s : string) : ends_blank (PyStr.rstrip_by PyStr.isspace s) = false.
Proof.
  induction s as [|c s IH]; [reflexivity|]. cbn [PyStr.rstrip_by].
  destruct (PyStr.rstrip_by PyStr.isspace s) as [|d r].
  - destruct (PyStr.isspace c) eqn:Hc; [reflexivity|]. cbn. exact Hc.
  - exact IH.
Qed.

Lemma rstrip_keeps_head (c : ascii) (s : string) :
  PyStr.isspace c = false ->
  exists r, PyStr.rstrip_by PyStr.isspace (String c s) = String c r.
Proof.
  intros Hc. cbn [PyStr.rstrip_by].
  destruct (PyStr.rstrip_by PyStr.isspace s) as [|d r]; [rewrite Hc|]; eauto.
Qed.

Lemma strip_not_blank (s : string) :
  starts_blank (PyStr.strip s) = false /\ ends_blank (PyStr.strip s) = false.
Proof.
  unfold PyStr.strip. split; [|apply rstrip_not_blank].
  pose proof (lstrip_not_blank s) as Hl.
  destruct (PyStr.lstrip_by PyStr.isspace s) as [|c r]; [reflexivity|].
  cbn in Hl. destruct (rstrip_keeps_head c r Hl) as [r' ->]. exact Hl.
Qed.

(** Every [when] element of the track holds a timestamp that is not
    empty and neither starts nor ends with a blank. *)
Theorem track_timestamps_trimmed :
  forall (cols : Columns) (rows : list Row),
  exists st,
    run_loop cols loop_start rows = Ok st /\
    forall e, In e (track st) -> element_tag e = "when" ->
              element_text e <> EmptyString /\
              starts_blank (element_text e) = false /\
              ends_blank (element_text e) = false.
Proof.
  intros cols rows. rewrite run_loop_final. eexists. split; [reflexivity|].
  cbn [track loop_start app]. intros e He Htag.
  apply in_flat_map in He as (row & _ & He).
  destruct (classify cols row) eqn:Hc;
    [|rewrite point_elements_not_written in He by congruence; destruct He ..].
  destruct (point_elements_written _ _ Hc) as (lat & lon & ele & _ & _ & _ & Hp).
  rewrite Hp in He. destruct He as [<-|[<-|[]]]; [|discriminate Htag].
  cbn [element_text text_element or_empty].
  split; [apply classify_written_iff in Hc; apply Hc | apply strip_not_blank].
Qed.

(** ** More on the resolver *)

(** The header [find_column] returns is one of the headers given, and
    its trimmed, lower-cased form contains one of the aliases. *)
Theorem found_column_matches_alias :
  forall (hs names : list string) (h : string),
    find_column (Some hs) names = Some h ->
    In h hs /\ exists name, In name names /\ PyStr.contains name (key_of h) = true.
Proof.
  intros hs names h Hf.
  destruct (find_column_some _ _ _ Hf) as (k & Hin).
  apply index_entry in Hin as [_ Hlast]. split; [now apply last_of_its_key_in|].
  destruct hs as [|h0 hs]; [discriminate|]. cbn [find_column] in Hf.
  destruct (exact_pass _ names) as [v|] eqn:He.
  - injection Hf as ->. destruct (exact_pass_some _ _ _ He) as (name & Hname & Hg).
    exists name. split; [assumption|].
    apply index_get_inv in Hg as [-> _]. apply contains_refl.
  - destruct (substring_pass_some _ _ _ Hf) as (name & Hname & Hc).
    exists name. split; [assumption|]. now apply candidates_of_headers in Hc.
Qed.

Lemma found_column_matches_alias_witness :
  In "Time (UTC)" ["Time (UTC)"; "Lat"; "Lon"; "Alt_m"] /\
  exists name, In name (POSSIBLE_HEADERS timestamp) /\
               PyStr.contains name (key_of "Time (UTC)") = true.
Proof.
  apply (found_column_matches_alias ["Time (UTC)"; "Lat"; "Lon"; "Alt_m"]
           (POSSIBLE_HEADERS timestamp) "Time (UTC)").
  reflexivity.
Defined.

Lemma exact_pass_skip (d : PyDict.dict) (pre rest : list string) :
  (forall b, In b pre -> PyDict.get d b = None) ->
  exact_pass d (pre ++ rest) = exact_pass d rest.
Proof.
  induction pre as [|b pre IH]; cbn [app exact_pass]; [reflexivity|].
  intros H. unfold PyDict.mem. rewrite (H b) by now left.
  apply IH. intros c Hc. apply H. now right.
Qed.

(** The order of the aliases, not the order of the headers, decides an
    exact match: when no earlier alias is the key of a header, the
    header whose key is the alias [a] is returned, wherever it stands
    in the header list. *)
Theorem exact_match_follows_alias_order :
  forall (hs pre post : list string) (a h : string),
    (forall b g, In b pre -> In g hs -> g <> EmptyString -> key_of g <> b) ->
    last_of_its_key hs h ->
    key_of h = a ->
    find_column (Some hs) (pre ++ a :: post) = Some h.
Proof.
  intros hs pre post a h Hpre Hlast <-.
  assert (Hg : PyDict.get (lower_to_original hs) (key_of h) = Some h)
    by now apply index_get_last.
  destruct hs as [|h0 hs]; [discriminate|]. cbn [find_column].
  rewrite exact_pass_skip.
  - cbn [exact_pass]. unfold PyDict.mem. now rewrite Hg.
  - intros b Hb. destruct (PyDict.get _ b) as [v|] eqn:Hv; [|reflexivity].
    apply index_get_inv in Hv as [-> Hv]. exfalso.
    apply (Hpre (key_of v) v Hb); [now apply last_of_its_key_in | apply Hv | reflexivity].
Qed.

Lemma exact_match_follows_alias_order_witness :
  find_column (Some ["lat"; "LATITUDE "; "lat_deg"]) ([] ++ "latitude" :: ["lat"; "lat_deg"])
  = Some "LATITUDE ".
Proof.
  apply (exact_match_follows_alias_order
           ["lat"; "LATITUDE "; "lat_deg"] [] ["lat"; "lat_deg"] "latitude" "LATITUDE ").
  - intros b g [].
  - split; [discriminate|]. exists ["lat"], ["lat_deg"]. split; [reflexivity|].
    intros h' [<-|[]] _. discriminate.
  - reflexivity.
Defined.

Lemma index_filter_truthy (hs : list string) (d : PyDict.dict) :
  fold_left index_step (filter PyStr.truthy hs) d = fold_left index_step hs d.
Proof.
  revert d. induction hs as [|h hs IH]; intros d; [reflexivity|].
  cbn [filter fold_left].
  destruct (PyStr.truthy h) eqn:Hh; cbn [fold_left]; rewrite IH; [reflexivity|].
  replace (index_step d h) with d by (unfold index_step; now rewrite Hh). reflexivity.
Qed.

Lemma exact_pass_empty_index (names : list string) : exact_pass [] names = None.
Proof. induction names; [reflexivity | assumption]. Qed.

Lemma substring_pass_empty_index (names : list string) : substring_pass [] names = None.
Proof. induction names; [reflexivity | assumption]. Qed.

(** Empty header cells play no part: dropping them from the header list
    never changes what [find_column] returns. *)
Theorem empty_headers_ignored :
  forall (hs names : list string),
    find_column (Some hs) names = find_column (Some (filter PyStr.truthy hs)) names.
Proof.
  intros hs names.
  assert (Hidx : lower_to_original (filter PyStr.truthy hs) = lower_to_original hs)
    by apply index_filter_truthy.
  destruct hs as [|h hs]; [reflexivity|].
  destruct (filter PyStr.truthy (h :: hs)) as [|g gs] eqn:Hf.
  - cbn [find_column]. rewrite <- Hidx. cbn.
    now rewrite exact_pass_empty_index, substring_pass_empty_index.
  - cbn [find_column]. now rewrite Hidx.
Qed.

(** ** The two front ends *)

Lemma detect_truthy (fieldnames : option (list string)) (f : Field) :
  col_truthy (detect fieldnames f) = true <-> detect fieldnames f <> None.
Proof.
  unfold detect. destruct fieldnames as [hs|];
    [|cbn; split; [discriminate | intros H; now elim H]].
  destruct (find_column (Some hs) (POSSIBLE_HEADERS f)) as [h|] eqn:Hf;
    [|cbn; split; [discriminate | intros H; now elim H]].
  split; [discriminate|]. intros _. cbn.
  destruct (find_column_some _ _ _ Hf) as (k & Hin).
  apply index_entry in Hin as [_ [Hne _]]. now apply truthy_true_iff.
Qed.

Lemma all_detected_iff (fieldnames : option (list string)) :
  all_detected fieldnames = true <-> forall f, detect fieldnames f <> None.
Proof.
  unfold all_detected. rewrite !andb_true_iff, !detect_truthy. split.
  - intros [[[Ht Hla] Hlo] He] f. destruct f; assumption.
  - intros H. repeat split; apply H.
Qed.

(** [csv_to_kml] after a failed detection *)
Lemma cli_aborted (csv_file kml_file : string) (fieldnames : option (list string))
      (rows : list Row) :
  all_detected fieldnames = false ->
  Cli.csv_to_kml csv_file kml_file fieldnames rows =
  Cli.mkRun
    (List.app
       (Cli.print_detected_columns fieldnames
          (detect fieldnames timestamp) (detect fieldnames latitude)
          (detect fieldnames longitude) (detect fieldnames elevation))
       [Cli.newline ++ "Error: Could not detect all required columns in CSV. Aborting."])
    (Cli.Exit 1).
Proof. intros Hall. unfold Cli.csv_to_kml. now rewrite Hall. Qed.

(** [process_csv] after a failed detection *)
Lemma iphone_skipped (csv_file out_dir : string) (fieldnames : option (list string))
      (rows : list Row) :
  all_detected fieldnames = false ->
  Iphone.process_csv csv_file out_dir fieldnames rows =
  Ok (Iphone.mkProcessed
        (PyStr.join Iphone.newline
           (List.app
              (Iphone.log_head csv_file
                 (detect fieldnames timestamp) (detect fieldnames latitude)
                 (detect fieldnames longitude) (detect fieldnames elevation))
              ["Error: Could not detect all required columns. Skipping."]))
        None).
Proof. intros Hall. unfold Iphone.process_csv. now rewrite Hall. Qed.








(** A run without a written row and without its warning: the name of
    the input file has the character of code 1, the four columns are
    detected, and the run ends with [ExpatError] after the detected
    columns. *)
Example no_warning_for_unwritable_name :
  all_detected flight_headers = true /\
  run_loop (columns_of flight_headers) loop_start [] = Ok loop_start /\
  rows_written loop_start = 0 /\
  Cli.csv_to_kml ("a" ++ String "001" ".csv") "flight.kml" flight_headers [] =
  Cli.mkRun ["Available CSV headers:";
             "  'timestamp', 'latitude', 'longitude', 'elevation'";
             "Detected columns:";
             "  timestamp -> 'timestamp'";
             "  latitude  -> 'latitude'";
             "  longitude -> 'longitude'";
             "  elevation -> 'elevation'"]
            (Cli.Uncaught ExpatError).
Proof. repeat (split; [vm_compute; reflexivity|]). vm_compute. reflexivity. Qed.


(** The two scripts convert alike.  For the same file name, headers and
    rows: both refuse ([csv_to_kml] exits with status 1, [process_csv]
    saves nothing); or both end with [ExpatError] and write nothing; or
    both write a document with the same track (only the name of the
    placemark differs), whose text has the same lines for the rows, and
    report the same four counters. *)
Theorem front_ends_agree :
  forall (csv_file kml_file out_dir : string) (fieldnames : option (list string))
         (rows : list Row),
    (all_detected fieldnames = false /\
     Cli.ending (Cli.csv_to_kml csv_file kml_file fieldnames rows) = Cli.Exit 1 /\
     exists log, Iphone.process_csv csv_file out_dir fieldnames rows =
                 Ok (Iphone.mkProcessed log None)) \/
    (all_detected fieldnames = true /\
     serializable (base_name csv_file) (columns_of fieldnames) rows = false /\
     Cli.ending (Cli.csv_to_kml csv_file kml_file fieldnames rows) = Cli.Uncaught ExpatError /\
     Iphone.process_csv csv_file out_dir fieldnames rows = Raise ExpatError) \/
    (all_detected fieldnames = true /\
     serializable (base_name csv_file) (columns_of fieldnames) rows = true /\
     exists st log points,
       run_loop (columns_of fieldnames) loop_start rows = Ok st /\
       Cli.ending (Cli.csv_to_kml csv_file kml_file fieldnames rows) =
       Cli.Finished kml_file
         (kml_document (PyXml.normalize_newlines (base_name csv_file)) "UAS - " points) /\
       Iphone.process_csv csv_file out_dir fieldnames rows =
       Ok (Iphone.mkProcessed log
             (Some (output_path out_dir csv_file,
                    kml_document (PyXml.normalize_newlines (base_name csv_file))
                                 "Flight Path - " points))) /\
       PyXml.toprettyxml
         (kml_document (PyXml.normalize_newlines (base_name csv_file)) "UAS - " points) =
       kml_text (base_name csv_file) "UAS - " (track_text (columns_of fieldnames) rows) /\
       PyXml.toprettyxml
         (kml_document (PyXml.normalize_newlines (base_name csv_file)) "Flight Path - " points) =
       kml_text (base_name csv_file) "Flight Path - "
                (track_text (columns_of fieldnames) rows) /\
       firstn 4 (tl (Cli.summary kml_file st)) =
       tl (Iphone.log_tail (output_path out_dir csv_file) st)).
Proof.
  intros csv_file kml_file out_dir fieldnames rows.
  destruct (all_detected fieldnames) eqn:Hall; [right | left].
  - destruct (serializable (base_name csv_file) (columns_of fieldnames) rows) eqn:Hser;
      [right | left]; (split; [reflexivity|]); (split; [reflexivity|]).
    + destruct (cli_finished csv_file kml_file fieldnames rows Hall Hser) as (st & Hrun & ->).
      destruct (iphone_finished csv_file out_dir fieldnames rows Hall Hser)
        as (st' & Hrun' & ->).
      rewrite Hrun in Hrun'. injection Hrun' as <-.
      exists st. do 2 eexists. split; [assumption|]. split; [reflexivity|].
      split; [reflexivity|].
      split; [apply document_text; [reflexivity | discriminate]|].
      split; [apply document_text; [reflexivity | discriminate]|]. reflexivity.
    + rewrite (cli_failed csv_file kml_file fieldnames rows Hall Hser).
      rewrite (iphone_failed csv_file out_dir fieldnames rows Hall Hser).
      split; reflexivity.
  - split; [reflexivity|].
    rewrite (cli_aborted _ _ _ _ Hall), (iphone_skipped _ _ _ _ Hall).
    split; [reflexivity|]. eexists. reflexivity.
Qed.

(** ** The folder of the input file *)

Lemma string_length_app (s1 s2 : string) :
  String.length (s1 ++ s2) = String.length s1 + String.length s2.
Proof. induction s1 as [|c s1 IH]; cbn; [reflexivity | now rewrite IH]. Qed.

Lemma substring_all (s : string) : String.substring 0 (String.length s) s = s.
Proof. induction s as [|c s IH]; cbn; [reflexivity | now rewrite IH]. Qed.

Lemma substring_after (p s : string) :
  String.substring (String.length p) (String.length s) (p ++ s) = s.
Proof. induction p as [|c p IH]; cbn; [apply substring_all | assumption]. Qed.

Lemma rfind_from_no_slash (i : nat) (s : string) (last : option nat) :
  no_slash s = true -> PyPath.rfind_from i "/" s last = last.
Proof.
  revert i last. induction s as [|c s IH]; intros i last; cbn; [reflexivity|].
  intros H. apply andb_true_iff in H as [Hc Hs].
  apply negb_true_iff in Hc. rewrite Hc. now apply IH.
Qed.

Lemma rfind_from_app (i : nat) (c : ascii) (s1 s2 : string) (last : option nat) :
  PyPath.rfind_from i c (s1 ++ s2) last =
  PyPath.rfind_from (i + String.length s1) c s2 (PyPath.rfind_from i c s1 last).
Proof.
  revert i last. induction s1 as [|d s1 IH]; intros i last; cbn.
  - now rewrite Nat.add_0_r.
  - rewrite IH. f_equal. lia.
Qed.

Lemma basename_no_slash (f : string) : no_slash f = true -> PyPath.basename f = f.
Proof.
  intros H. unfold PyPath.basename, PyPath.rfind. now rewrite rfind_from_no_slash.
Qed.

Lemma drop_past (q : string) (c : ascii) (f : string) :
  PyPath.drop (S (String.length q)) (q ++ String c f) = f.
Proof.
  unfold PyPath.drop. induction q as [|d q IH]; cbn.
  - rewrite Nat.sub_0_r. apply substring_all.
  - exact IH.
Qed.

Lemma basename_after_slash (q f : string) :
  no_slash f = true -> PyPath.basename (q ++ "/" ++ f) = f.
Proof.
  intros H. unfold PyPath.basename, PyPath.rfind.
  rewrite rfind_from_app. cbn [String.append PyPath.rfind_from].
  rewrite rfind_from_no_slash by assumption. cbn [Ascii.eqb Bool.eqb Nat.add].
  apply drop_past.
Qed.

Lemma ends_with_slash_split (a : string) :
  PyPath.ends_with_slash a = true -> exists q, a = q ++ "/".
Proof.
  induction a as [|c a IH]; [discriminate|]. cbn [PyPath.ends_with_slash].
  destruct a as [|d a].
  - intros H. apply Ascii.eqb_eq in H as ->. now exists EmptyString.
  - intros H. destruct (IH H) as [q ->]. now exists (String c q).
Qed.

Lemma no_slash_not_prefixed (f : string) : no_slash f = true -> String.prefix "/" f = false.
Proof.
  destruct f as [|c f]; [reflexivity|]. cbn [no_slash String.prefix]. intros H.
  apply andb_true_iff in H as [Hc _]. apply negb_true_iff, Ascii.eqb_neq in Hc.
  destruct (ascii_dec "/" c); [congruence | reflexivity].
Qed.

Lemma basename_join (a f : string) :
  no_slash f = true -> PyPath.basename (PyPath.join a f) = f.
Proof.
  intros H. unfold PyPath.join. rewrite (no_slash_not_prefixed f H).
  destruct (PyStr.truthy a) eqn:Ha; cbn [negb orb].
  - destruct (PyPath.ends_with_slash a) eqn:He.
    + destruct (ends_with_slash_split _ He) as [q Hq]. rewrite Hq, string_app_assoc.
      now apply basename_after_slash.
    + now apply basename_after_slash.
  - apply truthy_false_iff in Ha. rewrite Ha. now apply basename_no_slash.
Qed.

(** The folder of the input file leaves no trace: for a file name [f]
    without a slash, [process_csv] on [f] inside any folder gives the
    log, the output file name and the document it gives on [f] alone,
    and so does [csv_to_kml]. *)
Theorem input_folder_ignored :
  forall (folder f out_dir kml_file : string) (fieldnames : option (list string))
         (rows : list Row),
    no_slash f = true ->
    Iphone.process_csv (PyPath.join folder f) out_dir fieldnames rows =
    Iphone.process_csv f out_dir fieldnames rows /\
    Cli.csv_to_kml (PyPath.join folder f) kml_file fieldnames rows =
    Cli.csv_to_kml f kml_file fieldnames rows /\
    output_path out_dir (PyPath.join folder f) =
    PyPath.join out_dir (PyPath.splitext_root f ++ ".kml").
Proof.
  intros folder f out_dir kml_file fieldnames rows H.
  unfold Iphone.process_csv, Cli.csv_to_kml, Iphone.log_head, output_path.
  rewrite (basename_join folder f H), (basename_no_slash f H). repeat split.
Qed.

Lemma input_folder_ignored_witness :
  Iphone.process_csv (PyPath.join "/docs/DroneCSV_Input" "flight.csv") "out"
                     (Some ["time"; "lat"; "lon"; "alt"]) [] =
  Iphone.process_csv "flight.csv" "out" (Some ["time"; "lat"; "lon"; "alt"]) [] /\
  Cli.csv_to_kml (PyPath.join "/docs/DroneCSV_Input" "flight.csv") "flight.kml"
                 (Some ["time"; "lat"; "lon"; "alt"]) [] =
  Cli.csv_to_kml "flight.csv" "flight.kml" (Some ["time"; "lat"; "lon"; "alt"]) [] /\
  output_path "out" (PyPath.join "/docs/DroneCSV_Input" "flight.csv") =
  PyPath.join "out" (PyPath.splitext_root "flight.csv" ++ ".kml").
Proof.
  apply (input_folder_ignored "/docs/DroneCSV_Input" "flight.csv" "out" "flight.kml"
           (Some ["time"; "lat"; "lon"; "alt"]) []).
  reflexivity.
Defined.

(** ** The scripts *)







(** [main] of the iPhone script shows the alert and converts nothing
    when no name in the input folder ends in [.csv], in any letter
    case. *)
Theorem main_alerts_without_csv :
  forall (base_dir : string) (listing : list string) (reader : CliScript.Reader),
    (forall f, In f listing -> IphoneScript.is_csv f = false) ->
    IphoneScript.main base_dir listing reader =
    Ok (IphoneScript.mkSession
          (IphoneScript.Alert "No CSV files found"
             ("No CSV files found in:" ++ Iphone.newline ++ IphoneScript.input_dir base_dir)
             "OK")
          []).
Proof.
  intros base_dir listing reader Hnone. unfold IphoneScript.main, IphoneScript.csv_files.
  replace (filter IphoneScript.is_csv listing) with (@nil string); [reflexivity|].
  symmetry. induction listing as [|f listing IH]; [reflexivity|].
  cbn [filter]. rewrite (Hnone f) by now left.
  apply IH. intros g Hg. apply Hnone. now right.
Qed.

Lemma main_alerts_without_csv_witness :
  IphoneScript.main "/docs" ["notes.txt"; "csv"; "flight.csv.bak"] (fun _ => (None, [])) =
  Ok (IphoneScript.mkSession
        (IphoneScript.Alert "No CSV files found"
           ("No CSV files found in:" ++ Iphone.newline ++ IphoneScript.input_dir "/docs")
           "OK")
        []).
Proof.
  apply (main_alerts_without_csv "/docs" ["notes.txt"; "csv"; "flight.csv.bak"]).
  intros f [<-|[<-|[<-|[]]]]; reflexivity.
Defined.






(** Three [.csv] files, the second with the character of code 1 in the
    timestamp of a written row: the first is saved, [main] ends with
    [ExpatError], the third is not converted. *)
Example main_stops_at_unwritable_file :
  IphoneScript.main "/docs" ["a.csv"; "b.csv"; "c.csv"]
    (fun p => if String.eqb p "/docs/DroneCSV_Input/b.csv"
              then (flight_headers,
                    [flight_row ("a" ++ String "001" "b") "45.5" "-122.25" "100"])
              else (flight_headers, [flight_row "t1" "45.5" "-122.25" "100"]))
  = Raise ExpatError /\
  map fst (IphoneScript.files_saved "/docs" ["a.csv"; "b.csv"; "c.csv"]
             (fun p => if String.eqb p "/docs/DroneCSV_Input/b.csv"
                       then (flight_headers,
                             [flight_row ("a" ++ String "001" "b") "45.5" "-122.25" "100"])
                       else (flight_headers, [flight_row "t1" "45.5" "-122.25" "100"])))
  = ["/docs/KML_Output/a.kml"].
Proof. split; vm_compute; reflexivity. Qed.

(** ** More headers *)

(** [find_column] finds nothing exactly when no alias is contained in
    the key of a non-empty header. *)
Lemma find_column_none_iff (hs names : list string) :
  find_column (Some hs) names = None <->
  forall name h, In name names -> In h hs -> h <> EmptyString ->
                 PyStr.contains name (key_of h) = false.
Proof.
  split.
  - intros Hnone name h Hname Hh Hne.
    destruct (PyStr.contains name (key_of h)) eqn:Hc; [exfalso | reflexivity].
    destruct hs as [|h0 hs]; [destruct Hh|]. cbn [find_column] in Hnone.
    destruct (exact_pass _ names) eqn:He; [discriminate|].
    destruct (index_has_key _ _ Hh Hne) as [v Hv]. apply get_in in Hv.
    pose proof (proj1 (substring_pass_none _ _) Hnone name Hname) as Hnil.
    rewrite candidates_of_nil in Hnil. rewrite (Hnil _ _ Hv) in Hc. discriminate.
  - intros Hno. destruct (find_column (Some hs) names) as [h|] eqn:Hf; [exfalso | reflexivity].
    destruct (find_column_some _ _ _ Hf) as (k & Hin).
    apply index_entry in Hin as [_ Hlast].
    destruct hs as [|h0 hs]; [discriminate|]. cbn [find_column] in Hf.
    assert (Hbad : exists name, In name names /\ PyStr.contains name (key_of h) = true).
    { destruct (exact_pass _ names) as [v|] eqn:He.
      - injection Hf as ->. destruct (exact_pass_some _ _ _ He) as (name & Hname & Hg).
        exists name. split; [assumption|].
        apply index_get_inv in Hg as [-> _]. apply contains_refl.
      - destruct (substring_pass_some _ _ _ Hf) as (name & Hname & Hc).
        exists name. split; [assumption|]. now apply candidates_of_headers in Hc. }
    destruct Hbad as (name & Hname & Hc).
    rewrite (Hno name h Hname (last_of_its_key_in _ _ Hlast) (proj1 Hlast)) in Hc.
    discriminate.
Qed.

Lemma find_column_more_headers (hs hs' names : list string) :
  (forall h, In h hs -> In h hs') ->
  find_column (Some hs) names <> None -> find_column (Some hs') names <> None.
Proof.
  intros Hsub Hfound Hnone. apply Hfound. apply find_column_none_iff.
  intros name h Hname Hh Hne.
  apply (proj1 (find_column_none_iff hs' names) Hnone name h Hname (Hsub h Hh) Hne).
Qed.

(** More columns never hide a column: a field that has a column for
    some headers still has one (perhaps another) when headers are added
    anywhere in the list, and a file whose four columns are detected is
    still converted with the added columns. *)
Theorem more_headers_keep_columns :
  forall (hs hs' : list string),
    (forall h, In h hs -> In h hs') ->
    (forall names, find_column (Some hs) names <> None ->
                   find_column (Some hs') names <> None) /\
    (all_detected (Some hs) = true -> all_detected (Some hs') = true).
Proof.
  intros hs hs' Hsub. split.
  - intros names. now apply find_column_more_headers.
  - rewrite !all_detected_iff. intros Hall f. unfold detect.
    apply (find_column_more_headers hs hs' _ Hsub). apply Hall.
Qed.

Lemma more_headers_keep_columns_witness :
  (forall names, find_column (Some ["time"; "lat"; "lon"; "alt"]) names <> None ->
                 find_column (Some ["speed"; "lat"; "alt"; "lon"; "time"; "latitude"]) names
                 <> None) /\
  (all_detected (Some ["time"; "lat"; "lon"; "alt"]) = true ->
   all_detected (Some ["speed"; "lat"; "alt"; "lon"; "time"; "latitude"]) = true).
Proof.
  apply (more_headers_keep_columns
           ["time"; "lat"; "lon"; "alt"] ["speed"; "lat"; "alt"; "lon"; "time"; "latitude"]).
  intros h [<-|[<-|[<-|[<-|[]]]]]; simpl; auto 10.
Defined.
